(** * obsidian-tasks (fork): the Toggle Done command and the query entry point

    A shallow embedding of the Toggle Done command ([toggleLine] and
    [calculateCursorOffset], the file that imports [../Task] and
    [../StatusRegistry]) and of [TasksPlugin.oneHotResolveQueryToTasks]
    from [src/main.ts], with the properties the specification states about
    them.

    JavaScript strings are sequences of UTF-16 code units and [.length]
    counts code units, so a string is a [list N] here.  Cursor offsets and
    lengths are JavaScript numbers holding integers far below 2^53; they are
    modelled as [Z]. *)

From Stdlib Require Import ZArith NArith List String Ascii Bool Lia.
Import ListNotations.

(** ** JavaScript strings and the regular-expression primitives used *)

Module JS.

Definition code_unit := N.
Definition jsstring := list code_unit.

(** An ASCII literal as a JavaScript string. *)
Definition str (s : string) : jsstring :=
  map N_of_ascii (list_ascii_of_string s).

(** [s.length] *)
Definition length (s : jsstring) : Z := Z.of_nat (List.length s).

(** [Array.prototype.join] on an array of strings. *)
Fixpoint join (sep : jsstring) (parts : list jsstring) : jsstring :=
  match parts with
  | [] => []
  | [p] => p
  | p :: rest => p ++ sep ++ join sep rest
  end.

Definition LF : code_unit := 10%N.
Definition CR : code_unit := 13%N.
Definition dollar : code_unit := 36%N.

(** ECMAScript LineTerminator: LF, CR, U+2028, U+2029. *)
Definition isLineTerminator (c : code_unit) : bool :=
  ((c =? 10) || (c =? 13) || (c =? 8232) || (c =? 8233))%N.

(** The class [\s]: WhiteSpace and LineTerminator code points. *)
Definition isWhiteSpace (c : code_unit) : bool :=
  (((9 <=? c) && (c <=? 13)) || (c =? 32) || (c =? 160) || (c =? 5760)
   || ((8192 <=? c) && (c <=? 8202)) || (c =? 8232) || (c =? 8233)
   || (c =? 8239) || (c =? 8287) || (c =? 12288) || (c =? 65279))%N.

(** The class [\d] (and [[0-9]]). *)
Definition isDigit (c : code_unit) : bool := ((48 <=? c) && (c <=? 57))%N.

Definition isSpace (c : code_unit) : bool := (c =? 32)%N.

(** The atom [.] without the [s] flag: anything but a line terminator. *)
Definition dot (c : code_unit) : bool := negb (isLineTerminator c).

Definition isHighSurrogate (c : code_unit) : bool :=
  ((55296 <=? c) && (c <=? 56319))%N.
Definition isLowSurrogate (c : code_unit) : bool :=
  ((56320 <=? c) && (c <=? 57343))%N.

Fixpoint takeWhile (p : code_unit -> bool) (s : jsstring) : jsstring :=
  match s with
  | c :: r => if p c then c :: takeWhile p r else []
  | [] => []
  end.

Fixpoint dropWhile (p : code_unit -> bool) (s : jsstring) : jsstring :=
  match s with
  | c :: r => if p c then dropWhile p r else s
  | [] => []
  end.

(** [String.prototype.search]: the index of the first position at which the
    pattern matches, or -1.  [here] decides whether the pattern matches at
    the head of a suffix. *)
Fixpoint search_from (here : jsstring -> bool) (s : jsstring) (i : Z) : Z :=
  if here s then i
  else match s with
       | [] => (-1)%Z
       | _ :: r => search_from here r (i + 1)%Z
       end.

Definition search (here : jsstring -> bool) (s : jsstring) : Z :=
  search_from here s 0%Z.

(** Truthiness of [s.match(re)] for a pattern without the [g] flag: the
    result is an array exactly when the pattern matches somewhere. *)
Definition matches (here : jsstring -> bool) (s : jsstring) : bool :=
  negb (search here s =? -1)%Z.

(** The result of [RegExp.prototype.exec]: where the match starts, the text
    matched, and the text of the capture groups 1, 2, ...  None of the
    patterns of this program has an optional group, so every group of a
    match holds a string. *)
Record RegExpMatch : Type := mkMatch {
  index : nat;
  matched : jsstring;
  captures : list jsstring
}.

Definition digitValue (c : code_unit) : nat := N.to_nat (c - 48)%N.

Definition capture (m : RegExpMatch) (n : nat) : jsstring :=
  nth (n - 1) (captures m) [].

(** ECMAScript GetSubstitution: expands a replacement template. [$$] is a
    dollar sign, [$&] the matched text, [$`] and [$'] the text before and
    after the match, [$n] and [$nn] a capture group when it exists; every
    other dollar sign stands for itself (there are no named groups). *)
Fixpoint GetSubstitution (m : RegExpMatch) (s : jsstring) (template : jsstring)
  : jsstring :=
  match template with
  | [] => []
  | c :: t =>
    if (c =? 36)%N then
      match t with
      | [] => [c]
      | d :: t' =>
        if (d =? 36)%N then d :: GetSubstitution m s t'
        else if (d =? 38)%N then matched m ++ GetSubstitution m s t'
        else if (d =? 96)%N then firstn (index m) s ++ GetSubstitution m s t'
        else if (d =? 39)%N then
          skipn (index m + List.length (matched m)) s ++ GetSubstitution m s t'
        else if isDigit d then
          let captureLen := List.length (captures m) in
          let one :=
            let n := digitValue d in
            (if (1 <=? n)%nat && (n <=? captureLen)%nat then capture m n
             else [c; d]) ++ GetSubstitution m s t' in
          match t' with
          | e :: t'' =>
            if isDigit e then
              let nn := (10 * digitValue d + digitValue e)%nat in
              if (captureLen <? nn)%nat then one
              else (if (1 <=? nn)%nat then capture m nn else [c; d; e])
                   ++ GetSubstitution m s t''
            else one
          | [] => one
          end
        else c :: GetSubstitution m s t
      end
    else c :: GetSubstitution m s t
  end.

(** [s.replace(re, template)] for a pattern without the [g] flag: the first
    match is replaced by the expanded template, the text around it stays. *)
Definition replace (exec : jsstring -> option RegExpMatch)
  (template : jsstring) (s : jsstring) : jsstring :=
  match exec s with
  | None => s
  | Some m =>
    firstn (index m) s ++ GetSubstitution m s template
    ++ skipn (index m + List.length (matched m)) s
  end.

(** [re.test(s)] *)
Definition test (exec : jsstring -> option RegExpMatch) (s : jsstring) : bool :=
  match exec s with Some _ => true | None => false end.

End JS.

(** ** The patterns of [TaskRegularExpressions] *)

Module TaskRegularExpressions.
Import JS.

(** The table [TaskRegularExpressions] is imported from [../Task], which is
    not among the sources, so its patterns are modelled.  The specification
    describes the line pattern as optional leading indentation, a list
    marker (a dash, an asterisk, or a number), a status box and the body;
    [toggleLine] reads the indentation as group 1, the list marker as
    group 2, the status symbol as group 3 and the body as group 4.  The
    patterns below are those of the Tasks plugin, composed there from
    the pieces I = [\s\t>]* (indentation), M = [-*]|[0-9]+\. (list marker)
    and B = .* (body):
      indentationRegex  /^(I)/
      listItemRegex     /^(I)(M)/
      taskRegex         /^(I)(M) +\[(.)\] *(B)/u
      doneDateRegex     /✅ *(\d{4}-\d{2}-\d{2})$/u
    Each is written as the deterministic matcher it denotes: every starred
    class is followed by an atom outside the class, so the greedy choice is
    the only one that can succeed. *)

(** The class of the piece I: white space, a tab or a closing angle. *)
Definition isIndentation (c : code_unit) : bool :=
  (isWhiteSpace c || (c =? 9) || (c =? 62))%N.

(** The class [[-*]]. *)
Definition isBullet (c : code_unit) : bool := ((c =? 45) || (c =? 42))%N.

(** [([-*]|[0-9]+\.)] at the head of [s]: the marker and what follows it. *)
Definition listMarker (s : jsstring) : option (jsstring * jsstring) :=
  match s with
  | [] => None
  | c :: r =>
    if isBullet c then Some ([c], r)
    else match takeWhile isDigit s, dropWhile isDigit s with
         | (_ :: _) as digits, p :: r' =>
           if (p =? 46)%N then Some (digits ++ [p], r') else None
         | _, _ => None
         end
  end.

(** [(.)] under the [u] flag: one code point that is no line terminator; a
    surrogate pair is one code point, a lone surrogate is one as well. *)
Definition codePoint (s : jsstring) : option (jsstring * jsstring) :=
  match s with
  | [] => None
  | c :: r =>
    if isLineTerminator c then None
    else if isHighSurrogate c then
      match r with
      | d :: r' => if isLowSurrogate d then Some ([c; d], r') else Some ([c], r)
      | [] => Some ([c], r)
      end
    else Some ([c], r)
  end.

(** Modelled from the spec: [indentationRegex], the pattern /^(I)/ of the
    table above; it matches every string. *)
Definition indentationRegex (s : jsstring) : option RegExpMatch :=
  let indentation := takeWhile isIndentation s in
  Some (mkMatch 0 indentation [indentation]).

(** Modelled from the spec: [listItemRegex], the pattern /^(I)(M)/. *)
Definition listItemRegex (s : jsstring) : option RegExpMatch :=
  let indentation := takeWhile isIndentation s in
  match listMarker (dropWhile isIndentation s) with
  | Some (marker, _) =>
    Some (mkMatch 0 (indentation ++ marker) [indentation; marker])
  | None => None
  end.

(** Modelled from the spec: [taskRegex], the pattern
    /^(I)(M) +\[(.)\] *(B)/u with the groups indentation, list marker,
    status symbol and body. *)
Definition taskRegex (s : jsstring) : option RegExpMatch :=
  let indentation := takeWhile isIndentation s in
  match listMarker (dropWhile isIndentation s) with
  | None => None
  | Some (marker, r1) =>
    match takeWhile isSpace r1, dropWhile isSpace r1 with
    | (_ :: _) as gap, b :: r2 =>
      if (b =? 91)%N then
        match codePoint r2 with
        | None => None
        | Some (symbol, r3) =>
          match r3 with
          | e :: r4 =>
            if (e =? 93)%N then
              let pad := takeWhile isSpace r4 in
              let body := takeWhile dot (dropWhile isSpace r4) in
              Some (mkMatch 0
                      (indentation ++ marker ++ gap ++ [b] ++ symbol ++ [e]
                       ++ pad ++ body)
                      [indentation; marker; symbol; body])
            else None
          | [] => None
          end
        end
      else None
    | _, _ => None
    end
  end.

(** [\d{4}-\d{2}-\d{2}$]: exactly ten code units, then the end of input. *)
Definition isoDateAtEnd (s : jsstring) : bool :=
  match s with
  | [y1; y2; y3; y4; h1; m1; m2; h2; d1; d2] =>
    isDigit y1 && isDigit y2 && isDigit y3 && isDigit y4 && (h1 =? 45)%N
    && isDigit m1 && isDigit m2 && (h2 =? 45)%N && isDigit d1 && isDigit d2
  | _ => false
  end.

(** Modelled from the spec: [doneDateRegex], the pattern
    /✅ *(\d{4}-\d{2}-\d{2})$/u, at the head of [s]. *)
Definition doneDateRegex (s : jsstring) : bool :=
  match s with
  | c :: r => (c =? 9989)%N && isoDateAtEnd (dropWhile isSpace r)
  | [] => false
  end.

End TaskRegularExpressions.

(** ** The Toggle Done command: [toggleLine] and [calculateCursorOffset] *)

Module ToggleDone.
Import JS.

(** The pattern ['.+\n.+'] handed to [search] (a string, so compiled
    without flags) at the head of [s]: a run of characters that are no line
    terminators, a line feed, and one more such character.  The first run
    is greedy, yet a shorter run is followed by one of its own characters
    and never by the line feed, so only the whole run can succeed. *)
Fixpoint twoLines (s : jsstring) : bool :=
  match s with
  | [] => false
  | c :: r =>
    dot c
    && (match r with
        | n :: d :: _ => (n =? LF)%N && dot d
        | _ => false
        end
        || twoLines r)
  end.

(** The pattern [/[-*]/] at the head of [s]. *)
Definition firstBullet (s : jsstring) : bool :=
  match s with
  | c :: _ => ((c =? 45) || (c =? 42))%N
  | [] => false
  end.

(** The literal [' ✅ YYYY-MM-DD']. *)
Definition doneDateSample : jsstring :=
  [32; 9989; 32]%N ++ str "YYYY-MM-DD".

Definition calculateCursorOffset (origCursorCh : Z) (line toggledLine : jsstring)
  : Z :=
  let newLineLen := length toggledLine in
  if (newLineLen <=? length line)%Z then
    (* Line got shorter or stayed same length. *)
    if (origCursorCh >=? length toggledLine)%Z then newLineLen else origCursorCh
  else
    (* Special-case for done-date append *)
    let doneDateLength := length doneDateSample in
    let newLineLen :=
      if matches TaskRegularExpressions.doneDateRegex toggledLine
         && (newLineLen - length line >=? doneDateLength)%Z
      then (newLineLen - doneDateLength)%Z
      else newLineLen in
    (* Handle recurring tasks: entire line plus newline prepended. *)
    if (newLineLen >=? 2 * length line)%Z
       && negb (search twoLines toggledLine =? -1)%Z
    then (origCursorCh + newLineLen - length line)%Z
    else
      let firstListItemChar := search firstBullet toggledLine in
      if (origCursorCh <? firstListItemChar)%Z then
        (* Cursor was in indentation. *)
        origCursorCh
      else (origCursorCh + newLineLen - length line)%Z.

Section Collaborators.

(** The [Task] class and the [StatusRegistry] singleton live in modules that
    are not among the sources; [toggleLine] uses them through four calls,
    taken here as total functions (the specification states that none of
    them raises):
    - [Task.fromLine] with the fixed path, section and date arguments the
      source passes, [null] being [None];
    - [task.toggle()], one or two tasks;
    - [task.toFileLineString()];
    - [StatusRegistry.getInstance().bySymbol(s).nextStatusSymbol]. *)
Variable Task : Type.
Variable fromLine : jsstring -> option Task.
Variable toggle : Task -> list Task.
Variable toFileLineString : Task -> jsstring.
Variable Status : Type.
Variable bySymbol : jsstring -> Status.
Variable nextStatusSymbol : Status -> jsstring.

Definition toggleLine (line : jsstring) : jsstring :=
  match fromLine line with
  | Some task =>
    (* tasks such as recurring tasks may produce more than one task *)
    join [LF] (map toFileLineString (toggle task))
  | None =>
    match TaskRegularExpressions.taskRegex line with
    | Some regexMatch =>
      (* Toggle the status of the checklist item. *)
      let statusString := capture regexMatch 3 in
      let status := bySymbol statusString in
      let newStatusString := nextStatusSymbol status in
      replace TaskRegularExpressions.taskRegex
        (str "$1- [" ++ newStatusString ++ str "] $4") line
    | None =>
      if test TaskRegularExpressions.listItemRegex line then
        (* Convert the list item to a checklist item. *)
        replace TaskRegularExpressions.listItemRegex (str "$1$2 [ ]") line
      else
        (* Convert the line to a list item. *)
        replace TaskRegularExpressions.indentationRegex (str "$1- ") line
    end
  end.

End Collaborators.

End ToggleDone.

(** ** [src/main.ts]: the query entry point *)

Module Main.
Import JS.

(** A Promise settles at most once: [resolve] and [reject] act on a pending
    promise and are ignored by a settled one. *)
Inductive Promise (A E : Type) : Type :=
| Pending
| Fulfilled (value : A)
| Rejected (reason : E).
Arguments Pending {A E}.
Arguments Fulfilled {A E} value.
Arguments Rejected {A E} reason.

Definition resolve {A E : Type} (value : A) (p : Promise A E) : Promise A E :=
  match p with Pending => Fulfilled value | _ => p end.

Definition reject {A E : Type} (reason : E) (p : Promise A E) : Promise A E :=
  match p with Pending => Rejected reason | _ => p end.

Section Plugin.

(** What [main.ts] imports from modules that are not among the sources:
    the moment, priority and status types, [Status.DONE] with the identity
    test [==], [PriorityUtils.toNumber], the cache state with the test
    [state === State.Warm], and the [Query] class with its [error] field
    ([undefined] being [None]) and its method [applyQueryToTasks]. *)
Variables Moment Priority Status State Query : Type.
Variable Status_DONE : Status.
Variable Status_eq : Status -> Status -> bool.
Variable PriorityUtils_toNumber : Priority -> Z.
Variable isWarm : State -> bool.

(** The fields of a [Task] that [main.ts] reads. *)
Record Task : Type := {
  status : Status;
  priority : Priority;
  tags : list jsstring;
  originalMarkdown : jsstring;
  description : jsstring;
  estimatedTimeToComplete : option Z;
  startDate : option Moment;
  scheduledDate : option Moment;
  dueDate : option Moment;
  doneDate : option Moment
}.

Record TaskGroup : Type := { tasks : list Task }.
Record TaskGroups : Type := { groups : list TaskGroup }.

Variable newQuery : jsstring -> Query.
Variable error : Query -> option jsstring.
Variable applyQueryToTasks : Query -> list Task -> TaskGroups.

Record TaskExternal : Type := {
  ext_isDone : bool;
  ext_priority : Z;
  ext_tags : list jsstring;
  ext_originalMarkdown : jsstring;
  ext_description : jsstring;
  ext_estimatedTimeToComplete : option Z;
  ext_startDate : option Moment;
  ext_scheduledDate : option Moment;
  ext_dueDate : option Moment;
  ext_doneDate : option Moment
}.

(** [new TaskExternal(task)] *)
Definition newTaskExternal (task : Task) : TaskExternal :=
  {| ext_isDone := Status_eq (status task) Status_DONE;
     ext_priority := PriorityUtils_toNumber (priority task);
     ext_tags := tags task;
     ext_originalMarkdown := originalMarkdown task;
     ext_description := description task;
     ext_estimatedTimeToComplete := estimatedTimeToComplete task;
     ext_startDate := startDate task;
     ext_scheduledDate := scheduledDate task;
     ext_dueDate := dueDate task;
     ext_doneDate := doneDate task |}.

Definition notWarm : jsstring := str "Cache is not warm, but expected to be so.".

(** The callback handed to the cache with the request-cache-update event,
    as a transformer of the promise it closes over.  The statements run in
    the order of the source: there is no [return] after the first
    [reject], so the rest of the body still runs on a query with an
    error. *)
Definition cacheUpdateCallback (query : jsstring) (cacheTasks : list Task)
  (state : State) (promise : Promise (list TaskExternal) jsstring)
  : Promise (list TaskExternal) jsstring :=
  let tasksExternal : list TaskExternal := [] in
  let myQuery := newQuery query in
  let promise :=
    match error myQuery with
    | Some e => reject e promise
    | None => promise
    end in
  let '(tasksExternal, promise) :=
    if isWarm state then
      let taskGroups := applyQueryToTasks myQuery cacheTasks in
      (fold_left
         (fun acc group => acc ++ map newTaskExternal (tasks group))
         (groups taskGroups) tasksExternal,
       promise)
    else (tasksExternal, reject notWarm promise) in
  resolve tasksExternal promise.

(** [oneHotResolveQueryToTasks(query)]: a new promise whose executor
    triggers the event; the cache answers it by calling the callback once
    with its tasks and its state. *)
Definition oneHotResolveQueryToTasks (query : jsstring)
  (cacheTasks : list Task) (state : State)
  : Promise (list TaskExternal) jsstring :=
  cacheUpdateCallback query cacheTasks state Pending.

End Plugin.

End Main.

(** ** The cursor policy in the words of the specification *)

Module Policy.
Import JS.

(** Step 2: the length of the new line once a done-date suffix of the
    fixed width 13 has been discounted. *)
Definition adjustedLength (oldLine newLine : jsstring) : Z :=
  if matches TaskRegularExpressions.doneDateRegex newLine
     && (13 <=? length newLine - length oldLine)%Z
  then (length newLine - 13)%Z
  else length newLine.

(** Steps 3 and 4, applied to a given adjusted length of the new line. *)
Definition remainingSteps (originalOffset oldLen adjustedLen : Z)
  (newLine : jsstring) : Z :=
  if (2 * oldLen <=? adjustedLen)%Z && matches ToggleDone.twoLines newLine
  then (originalOffset + (adjustedLen - oldLen))%Z
  else if (originalOffset <? search ToggleDone.firstBullet newLine)%Z
       then originalOffset
       else (originalOffset + (adjustedLen - oldLen))%Z.

(** A line feed with a character that is no line terminator right before
    it and right after it. *)
Definition embeddedLineBreak (s : jsstring) : Prop :=
  exists pre c d post,
    s = pre ++ c :: LF :: d :: post /\ dot c = true /\ dot d = true.

(** A line feed with some character before it and some character after
    it, whatever the two characters are. *)
Definition lineBreakBetweenCharacters (s : jsstring) : Prop :=
  exists pre c d post, s = pre ++ c :: LF :: d :: post.

(** The first dash or asterisk of [s], wherever it is, stands at offset
    [p]: what the search for the pattern [/[-*]/] finds. *)
Definition firstDashOrAsteriskAt (s : jsstring) (p : Z) : Prop :=
  exists pre c post,
    s = pre ++ c :: post
    /\ forallb (fun x => negb (TaskRegularExpressions.isBullet x)) pre = true
    /\ TaskRegularExpressions.isBullet c = true
    /\ p = length pre.

(** No dash and no asterisk anywhere in [s]. *)
Definition noListMarker (s : jsstring) : Prop :=
  forallb (fun x => negb (TaskRegularExpressions.isBullet x)) s = true.

End Policy.

(** ** The parts of a line, as the patterns delimit them *)

Module Grammar.
Import JS.

(** Whether the first character of [s] is in the class [p]. *)
Definition headIs (p : code_unit -> bool) (s : jsstring) : bool :=
  match s with c :: _ => p c | [] => false end.

(** A list marker: a dash, an asterisk, or digits and a full stop. *)
Definition isListMarkerText (marker : jsstring) : Prop :=
  (exists c, marker = [c] /\ TaskRegularExpressions.isBullet c = true)
  \/ (exists digits, marker = digits ++ [46%N] /\ digits <> []
                     /\ forallb isDigit digits = true).

(** The list marker of the line [s] stands at offset [p]: the line is
    indentation up to [p] and a list marker from there. *)
Definition listMarkerAt (s : jsstring) (p : Z) : Prop :=
  exists indentation marker rest,
    s = indentation ++ marker ++ rest
    /\ forallb TaskRegularExpressions.isIndentation indentation = true
    /\ isListMarkerText marker
    /\ p = length indentation.

(** A status symbol: one code point that is no line terminator. *)
Definition isStatusSymbol (symbol : jsstring) : Prop :=
  (exists c, symbol = [c] /\ dot c = true)
  \/ (exists c d, symbol = [c; d] /\ isHighSurrogate c = true
                  /\ isLowSurrogate d = true).

(** The characters that start a replacement pattern after a dollar sign. *)
Definition startsPattern (d : code_unit) : bool :=
  ((d =? 36) || (d =? 38) || (d =? 96) || (d =? 39))%N || isDigit d.

(** A text stands for itself inside a replacement template, before the
    character [next], when none of its dollar signs is followed by a
    character that starts a replacement pattern. *)
Fixpoint standsForItself (text : jsstring) (next : code_unit) : bool :=
  match text with
  | [] => true
  | c :: r =>
    (negb (c =? 36)%N || negb (startsPattern (hd next r)))
    && standsForItself r next
  end.

End Grammar.


(** ** [toggleLine] with calls that may raise *)

Module Raising.
Import JS.

(** How a call ends: it returns a value or it raises an exception. *)
Inductive Outcome (A : Type) : Type :=
| Returned (value : A)
| Raised.
Arguments Returned {A} value.
Arguments Raised {A}.

Definition bind {A B : Type} (o : Outcome A) (k : A -> Outcome B)
  : Outcome B :=
  match o with
  | Returned a => k a
  | Raised => Raised
  end.

(** [Array.prototype.map] with a callback that may raise: the elements are
    visited in order and the first exception ends the call. *)
Fixpoint mapM {A B : Type} (f : A -> Outcome B) (l : list A)
  : Outcome (list B) :=
  match l with
  | [] => Returned []
  | a :: rest =>
    bind (f a) (fun b => bind (mapM f rest) (fun bs => Returned (b :: bs)))
  end.

Section Collaborators.

(** The four calls into the modules that are not among the sources, each
    free to raise.  Reading [nextStatusSymbol] off a status is a field
    access. *)
Variable Task : Type.
Variable fromLine : jsstring -> Outcome (option Task).
Variable toggle : Task -> Outcome (list Task).
Variable toFileLineString : Task -> Outcome jsstring.
Variable Status : Type.
Variable bySymbol : jsstring -> Outcome Status.
Variable nextStatusSymbol : Status -> jsstring.

(** [toggleLine], statement by statement, an exception of a call ending
    the function. *)
Definition toggleLine (line : jsstring) : Outcome jsstring :=
  bind (fromLine line) (fun task =>
  match task with
  | Some task =>
    bind (toggle task) (fun tasks =>
    bind (mapM toFileLineString tasks) (fun lines =>
    Returned (join [LF] lines)))
  | None =>
    match TaskRegularExpressions.taskRegex line with
    | Some regexMatch =>
      let statusString := capture regexMatch 3 in
      bind (bySymbol statusString) (fun status =>
      let newStatusString := nextStatusSymbol status in
      Returned
        (replace TaskRegularExpressions.taskRegex
           (str "$1- [" ++ newStatusString ++ str "] $4") line))
    | None =>
      if test TaskRegularExpressions.listItemRegex line then
        Returned
          (replace TaskRegularExpressions.listItemRegex (str "$1$2 [ ]") line)
      else
        Returned
          (replace TaskRegularExpressions.indentationRegex (str "$1- ") line)
    end
  end).

End Collaborators.

End Raising.

(** ** The four branches of [toggleLine], by the shape of the line *)

Module Branches.
Import JS.

Inductive Branch : Type := FullTask | ChecklistItem | ListItem | PlainText.

(** Lines written one after the other with a line feed between them. *)
Definition separated (parts : list jsstring) : jsstring :=
  match parts with
  | [] => []
  | first :: others => first ++ flat_map (fun part => LF :: part) others
  end.

(** The parts of a checklist item: indentation, list marker, one or more
    spaces, the status symbol in brackets, spaces, the body up to the
    first line terminator, and what follows. *)
Definition checklistParts
  (line indentation marker gap symbol pad body rest : jsstring) : Prop :=
  line = indentation ++ marker ++ gap ++ [91%N] ++ symbol ++ [93%N]
         ++ pad ++ body ++ rest
  /\ forallb TaskRegularExpressions.isIndentation indentation = true
  /\ Grammar.isListMarkerText marker
  /\ gap <> [] /\ forallb isSpace gap = true
  /\ Grammar.isStatusSymbol symbol
  /\ forallb isSpace pad = true
  /\ forallb dot body = true
  /\ Grammar.headIs isSpace (body ++ rest) = false
  /\ Grammar.headIs dot rest = false.

Definition isChecklistItem (line : jsstring) : Prop :=
  exists indentation marker gap symbol pad body rest,
    checklistParts line indentation marker gap symbol pad body rest.

Section Collaborators.

Variable Task : Type.
Variable fromLine : jsstring -> Raising.Outcome (option Task).
Variable toggle : Task -> Raising.Outcome (list Task).
Variable toFileLineString : Task -> Raising.Outcome jsstring.
Variable Status : Type.
Variable bySymbol : jsstring -> Raising.Outcome Status.
Variable nextStatusSymbol : Status -> jsstring.

(** [Takes line b result]: the line has the shape of branch [b], and
    [result] is what that branch makes of it.
    - A Task record: the renderings of the toggled tasks, separated by
      line feeds.
    - A checklist item: its indentation, a dash, a space and an opening
      bracket, then the expansion of the next status symbol followed by
      the closing bracket, a space and the body, then what followed the
      body.
    - A list item that is no checklist item: the status box of a space
      put right after the list marker.
    - Plain text, with no list marker after its indentation: a dash and
      a space put right after the indentation. *)
Inductive Takes (line : jsstring) : Branch -> jsstring -> Prop :=
| takes_full_task (task : Task) (tasks : list Task)
    (rendered : list jsstring) :
    fromLine line = Raising.Returned (Some task) ->
    toggle task = Raising.Returned tasks ->
    Forall2 (fun t r => toFileLineString t = Raising.Returned r)
      tasks rendered ->
    Takes line FullTask (separated rendered)
| takes_checklist_item
    (indentation marker gap symbol pad body rest : jsstring)
    (status : Status) :
    fromLine line = Raising.Returned None ->
    checklistParts line indentation marker gap symbol pad body rest ->
    bySymbol symbol = Raising.Returned status ->
    Takes line ChecklistItem
      (indentation ++ str "- ["
       ++ GetSubstitution
            (mkMatch 0
               (indentation ++ marker ++ gap ++ [91%N] ++ symbol ++ [93%N]
                ++ pad ++ body)
               [indentation; marker; symbol; body])
            line (nextStatusSymbol status ++ str "] $4")
       ++ rest)
| takes_list_item (indentation marker rest : jsstring) :
    fromLine line = Raising.Returned None ->
    line = indentation ++ marker ++ rest ->
    forallb TaskRegularExpressions.isIndentation indentation = true ->
    Grammar.isListMarkerText marker ->
    ~ isChecklistItem line ->
    Takes line ListItem (indentation ++ marker ++ str " [ ]" ++ rest)
| takes_plain_text (indentation rest : jsstring) :
    fromLine line = Raising.Returned None ->
    line = indentation ++ rest ->
    forallb TaskRegularExpressions.isIndentation indentation = true ->
    Grammar.headIs TaskRegularExpressions.isIndentation rest = false ->
    (forall marker after,
       Grammar.isListMarkerText marker -> rest <> marker ++ after) ->
    Takes line PlainText (indentation ++ str "- " ++ rest).

End Collaborators.

End Branches.

(** ** Example lines and an example configuration *)

Module Examples.
Import JS.

(** A configuration for the examples: a global filter is set that the
    example lines lack, so none of them is a Task record, and the status
    registry holds the two core statuses, to-do (a space, next [x]) and
    done ([x], next a space). *)
Definition fromLine (line : jsstring) : option unit := None.

Definition nextStatusSymbol (symbol : jsstring) : jsstring :=
  match symbol with
  | [32%N] => str "x"
  | _ => str " "
  end.

Definition toggleLine : jsstring -> jsstring :=
  ToggleDone.toggleLine unit fromLine (fun _ => []) (fun _ => [])
    jsstring (fun symbol => symbol) nextStatusSymbol.

(** ["- [x] a ✅ 2024-01-01"] *)
Definition doneLine : jsstring :=
  str "- [x] a" ++ [32; 9989; 32]%N ++ str "2024-01-01".

(** [" - a\r\n - b"] and [" - a\n - b"] *)
Definition crlfLines : jsstring := str " - a" ++ [CR; LF] ++ str " - b".
Definition lfLines : jsstring := str " - a" ++ [LF] ++ str " - b".

(** ["- [ ] Buy milk"] and its match by [taskRegex]. *)
Definition milk : jsstring := str "- [ ] Buy milk".
Definition milkMatch : RegExpMatch :=
  mkMatch 0 milk [[]; str "-"; str " "; str "Buy milk"].

(** A query class for the examples: the empty source compiles, any other
    source is reported as the instruction that was not understood. *)
Definition error (query : jsstring) : option jsstring :=
  match query with
  | [] => None
  | _ => Some (str "do not understand query: " ++ query)
  end.

End Examples.

(** ** The Toggle Done command: [toggleDone] *)

Module Command.
Import JS.

(** Obsidian's [EditorPosition]: a line number and an offset in the line,
    both counted from 0. *)
Record EditorPosition : Type := { line : Z; ch : Z }.

Section Host.

(** The host objects come from the [obsidian] package.  The editor is
    mutable, so every operation that writes returns the editor after the
    write.  Of the view the command reads whether it is a [MarkdownView]
    and the path of its file ([view.file?.path], [undefined] being
    [None]). *)
Variable Editor : Type.
Variable getCursor : Editor -> EditorPosition.
Variable getLine : Z -> Editor -> jsstring.
Variable setLine : Z -> jsstring -> Editor -> Editor.
Variable setCursor : EditorPosition -> Editor -> Editor.
Variable View : Type.
Variable isMarkdownView : View -> bool.
Variable filePath : View -> option jsstring.

Variable Task : Type.
Variable fromLine : jsstring -> option Task.
Variable toggle : Task -> list Task.
Variable toFileLineString : Task -> jsstring.
Variable Status : Type.
Variable bySymbol : jsstring -> Status.
Variable nextStatusSymbol : Status -> jsstring.

(** The result is a boolean when checking and [undefined] ([None])
    otherwise, together with the editor as the call leaves it. *)
Definition toggleDone (checking : bool) (editor : Editor) (view : View)
  : option bool * Editor :=
  if checking then
    if negb (isMarkdownView view) then
      (* If we are not in a markdown view, the command shouldn't be shown. *)
      (Some false, editor)
    else
      (* The command should always trigger in a markdown view. *)
      (Some true, editor)
  else if negb (isMarkdownView view) then
    (* Should never happen due to check above. *)
    (None, editor)
  else
    match filePath view with
    | None => (None, editor)
    | Some _ =>
      let origCursorPos := getCursor editor in
      let lineNumber := line origCursorPos in
      let line_ := getLine lineNumber editor in
      let toggledLine :=
        ToggleDone.toggleLine Task fromLine toggle toFileLineString
          Status bySymbol nextStatusSymbol line_ in
      let editor := setLine lineNumber toggledLine editor in
      let editor :=
        setCursor
          {| line := line origCursorPos;
             ch := ToggleDone.calculateCursorOffset
                     (ch origCursorPos) line_ toggledLine |}
          editor in
      (None, editor)
    end.

End Host.

End Command.

(** ** [src/main.d.ts]: tasks handed out and taken back *)

Module MainD.
Import JS.

(** [String.prototype.trim]: white space and line terminators are removed
    from both ends. *)
Definition trim (s : jsstring) : jsstring :=
  rev (dropWhile isWhiteSpace (rev (dropWhile isWhiteSpace s))).

Record TaskUID : Type := {
  uid_path : jsstring;
  uid_sectionIndex : Z;
  uid_taskIndex : Z
}.

Section Plugin.

(** What [main.d.ts] imports from modules that are not among the sources:
    the moment, priority, status, rule and recurrence types; [Status.DONE]
    and [Status.TODO] with the identity test [==]; the two conversions of
    [PriorityUtils]; the fields [rrule] and [referenceDate] of a
    recurrence; the whole match of [blockLinkRegex] and group 1 of
    [recurrenceRegex] on a string ([None] when the pattern does not
    match); [DateFallback.fromPath], [DateFallback.canApplyFallback] on
    the start, scheduled and due dates, and [Recurrence.fromText] on the
    rule text and the same three dates. *)
Variables Moment Priority Status RRule Recurrence : Type.
Variables Status_DONE Status_TODO : Status.
Variable Status_eq : Status -> Status -> bool.
Variable PriorityUtils_toNumber : Priority -> Z.
Variable PriorityUtils_fromNumber : Z -> Priority.
Variable rrule : Recurrence -> RRule.
Variable referenceDate : Recurrence -> option Moment.
Variable blockLinkRegex : jsstring -> option jsstring.
Variable recurrenceRegex : jsstring -> option jsstring.
Variable DateFallback_fromPath : jsstring -> option Moment.
Variable DateFallback_canApplyFallback :
  option Moment -> option Moment -> option Moment -> bool.
Variable Recurrence_fromText :
  jsstring -> option Moment -> option Moment -> option Moment
  -> option Recurrence.

(** A [Task] as [new Task] receives it in [taskFromTaskExternal]. *)
Record Task : Type := {
  estimatedTimeToComplete : option Z;
  status : Status;
  description : jsstring;
  path : jsstring;
  indentation : jsstring;
  listMarker : jsstring;
  sectionStart : Z;
  sectionIndex : Z;
  precedingHeader : jsstring;
  priority : Priority;
  startDate : option Moment;
  scheduledDate : option Moment;
  dueDate : option Moment;
  doneDate : option Moment;
  recurrence : option Recurrence;
  blockLink : jsstring;
  tags : list jsstring;
  originalMarkdown : jsstring;
  scheduledDateIsInferred : bool
}.

(** [TaskUID.fromTask] *)
Definition TaskUID_fromTask (task : Task) : TaskUID :=
  {| uid_path := path task;
     uid_sectionIndex := sectionStart task;
     uid_taskIndex := sectionIndex task |}.

Record TaskExternal : Type := {
  ext_isDone : bool;
  ext_priority : Z;
  ext_tags : list jsstring;
  ext_originalMarkdown : jsstring;
  ext_description : jsstring;
  ext_estimatedTimeToComplete : option Z;
  ext_startDate : option Moment;
  ext_scheduledDate : option Moment;
  ext_dueDate : option Moment;
  ext_doneDate : option Moment;
  ext_uid : TaskUID;
  ext_recurrenceRrule : option RRule;
  ext_recurrenceReferenceDate : option Moment
}.

(** [new TaskExternal(task)] *)
Definition newTaskExternal (task : Task) : TaskExternal :=
  {| ext_isDone := Status_eq (status task) Status_DONE;
     ext_priority := PriorityUtils_toNumber (priority task);
     ext_tags := tags task;
     ext_originalMarkdown := originalMarkdown task;
     ext_description := description task;
     ext_estimatedTimeToComplete := estimatedTimeToComplete task;
     ext_startDate := startDate task;
     ext_scheduledDate := scheduledDate task;
     ext_dueDate := dueDate task;
     ext_doneDate := doneDate task;
     ext_uid := TaskUID_fromTask task;
     ext_recurrenceRrule :=
       match recurrence task with
       | Some r => Some (rrule r)
       | None => None
       end;
     ext_recurrenceReferenceDate :=
       match recurrence task with
       | Some r => referenceDate r
       | None => None
       end |}.

(** [taskFromTaskExternal]; [null] is [None] on both sides. *)
Definition taskFromTaskExternal (taskExternal : option TaskExternal)
  : option Task :=
  match taskExternal with
  | None => None
  | Some taskExternal =>
    let line := ext_originalMarkdown taskExternal in
    match TaskRegularExpressions.taskRegex line with
    | None => None
    | Some regexMatch =>
      let indentation := capture regexMatch 1 in
      let listMarker := capture regexMatch 2 in
      let body := trim (capture regexMatch 4) in
      let blockLink :=
        match blockLinkRegex body with
        | Some whole => whole
        | None => []
        end in
      (* Infer the scheduled date from the file name if not set explicitly *)
      let fallbackDate :=
        DateFallback_fromPath (uid_path (ext_uid taskExternal)) in
      let '(scheduledDate, scheduledDateIsInferred) :=
        if DateFallback_canApplyFallback
             (ext_startDate taskExternal)
             (ext_scheduledDate taskExternal)
             (ext_dueDate taskExternal)
        then
          match fallbackDate with
          | Some fallback => (Some fallback, true)
          | None => (ext_scheduledDate taskExternal, false)
          end
        else (ext_scheduledDate taskExternal, false) in
      let recurrenceRule :=
        match recurrenceRegex body with
        | Some rule => Some (trim rule)
        | None => None
        end in
      let recurrence :=
        match recurrenceRule with
        | Some ((_ :: _) as rule) =>
          Recurrence_fromText rule (ext_startDate taskExternal)
            scheduledDate (ext_dueDate taskExternal)
        | _ => None
        end in
      Some
        {| estimatedTimeToComplete := ext_estimatedTimeToComplete taskExternal;
           status := if ext_isDone taskExternal then Status_DONE
                     else Status_TODO;
           description := ext_description taskExternal;
           path := uid_path (ext_uid taskExternal);
           indentation := indentation;
           listMarker := listMarker;
           sectionStart := uid_sectionIndex (ext_uid taskExternal);
           sectionIndex := uid_taskIndex (ext_uid taskExternal);
           precedingHeader := [];
           priority := PriorityUtils_fromNumber (ext_priority taskExternal);
           startDate := ext_startDate taskExternal;
           scheduledDate := scheduledDate;
           dueDate := ext_dueDate taskExternal;
           doneDate := ext_doneDate taskExternal;
           recurrence := recurrence;
           blockLink := blockLink;
           tags := ext_tags taskExternal;
           originalMarkdown := line;
           scheduledDateIsInferred := scheduledDateIsInferred |}
    end
  end.

End Plugin.

End MainD.

(** ** Checklist lines in their usual spelling *)

Module Lines.
Import JS.


End Lines.

(** ** A text buffer and a plugin instance for the examples *)

Module Instances.
Import JS.

(** A buffer of lines with a cursor, as a host editor. *)
Record Buffer : Type := {
  text : list jsstring;
  cursor : Command.EditorPosition
}.

Definition getCursor (b : Buffer) : Command.EditorPosition := cursor b.

Definition getLine (n : Z) (b : Buffer) : jsstring :=
  nth (Z.to_nat n) (text b) [].

Definition setLine (n : Z) (s : jsstring) (b : Buffer) : Buffer :=
  {| text := firstn (Z.to_nat n) (text b) ++ s
             :: skipn (S (Z.to_nat n)) (text b);
     cursor := cursor b |}.

Definition setCursor (p : Command.EditorPosition) (b : Buffer) : Buffer :=
  {| text := text b; cursor := p |}.

(** A note of two lines with the cursor in the second, after [Just]. *)
Definition note : Buffer :=
  {| text := [str "# Shopping"; str "  Just text"];
     cursor := {| Command.line := 1; Command.ch := 6 |} |}.

(** A view is a pair: whether it is a markdown view, and its file path. *)
Definition markdownView : bool * option jsstring :=
  (true, Some (str "Shopping.md")).

Definition toggleDone (checking : bool) (b : Buffer)
  (view : bool * option jsstring) : option bool * Buffer :=
  Command.toggleDone Buffer getCursor getLine setLine setCursor
    (bool * option jsstring) fst snd
    unit Examples.fromLine (fun _ => []) (fun _ => [])
    jsstring (fun symbol => symbol) Examples.nextStatusSymbol
    checking b view.

(** The example configuration as calls that return. *)
Definition fromLine (line : jsstring) : Raising.Outcome (option unit) :=
  Raising.Returned (Examples.fromLine line).

Definition bySymbol (symbol : jsstring) : Raising.Outcome jsstring :=
  Raising.Returned symbol.

Definition toggleLine : jsstring -> Raising.Outcome jsstring :=
  Raising.toggleLine unit fromLine
    (fun _ => Raising.Returned []) (fun _ => Raising.Returned [])
    jsstring bySymbol Examples.nextStatusSymbol.

(** A plugin instance: dates are day numbers, priorities their numbers,
    a status is whether it is the done status; no block link and no
    recurrence is recognised, every path names the day 19723, and the
    fallback applies when none of the three dates is set. *)
Definition canApplyFallback (startDate scheduledDate dueDate : option Z)
  : bool :=
  match startDate, scheduledDate, dueDate with
  | None, None, None => true
  | _, _, _ => false
  end.

Definition newTaskExternal : MainD.Task Z Z bool unit -> MainD.TaskExternal Z unit :=
  MainD.newTaskExternal Z Z bool unit unit true Bool.eqb (fun p => p)
    (fun r => r) (fun _ => None).

Definition taskFromTaskExternal
  : option (MainD.TaskExternal Z unit) -> option (MainD.Task Z Z bool unit) :=
  MainD.taskFromTaskExternal Z Z bool unit unit true false (fun n => n)
    (fun _ => None) (fun _ => None) (fun _ => Some 19723%Z)
    canApplyFallback (fun _ _ _ _ => None).

(** The task of the line ["- [ ] Buy milk"], without dates. *)
Definition milkTask : MainD.Task Z Z bool unit :=
  {| MainD.estimatedTimeToComplete := Some 5%Z;
     MainD.status := false;
     MainD.description := str "Buy milk";
     MainD.path := str "Shopping.md";
     MainD.indentation := [];
     MainD.listMarker := str "-";
     MainD.sectionStart := 0;
     MainD.sectionIndex := 0;
     MainD.precedingHeader := str "Shopping";
     MainD.priority := 3%Z;
     MainD.startDate := None;
     MainD.scheduledDate := None;
     MainD.dueDate := None;
     MainD.doneDate := None;
     MainD.recurrence := None;
     MainD.blockLink := [];
     MainD.tags := [];
     MainD.originalMarkdown := Examples.milk;
     MainD.scheduledDateIsInferred := false |}.

End Instances.

(** ** Tactics *)

Import JS.

(** Case analysis on the comparisons of a goal. *)
Ltac split_tests :=
  repeat match goal with
         | |- context [(?a <=? ?b)%Z] => destruct (Z.leb_spec a b)
         | |- context [(?a <? ?b)%Z] => destruct (Z.ltb_spec a b)
         | |- context [(?a >=? ?b)%Z] => rewrite (Z.geb_leb a b)
         | |- context [(?a =? ?b)%Z] => destruct (Z.eqb_spec a b)
         | |- context [matches ?h ?s] => destruct (matches h s)
         | |- _ => progress cbn [andb orb negb]
         end.

(** Right-nested appends. *)
Ltac flatten_app :=
  repeat (rewrite <- app_assoc || rewrite <- app_comm_cons); cbn [app].

(** Spells an ASCII literal out as the list of its code units. *)
Ltac spell text :=
  let v := eval vm_compute in (str text) in change (str text) with v.

(** No line feed among the characters of a closed string. *)
Ltac no_line_feed :=
  let H := fresh in
  intro H; cbn in H; repeat (destruct H as [H|H]; [discriminate|]); exact H.

(** ** Properties of [String.prototype.search] *)

Lemma length_nonneg (s : jsstring) : (0 <= length s)%Z.
Proof. unfold length; lia. Qed.

Lemma length_app (s t : jsstring) : length (s ++ t) = (length s + length t)%Z.
Proof. unfold length; rewrite List.length_app; lia. Qed.

Lemma length_cons (c : code_unit) (s : jsstring) :
  length (c :: s) = (1 + length s)%Z.
Proof. unfold length; cbn [List.length]; lia. Qed.

(** The search stops at the first suffix the pattern matches. *)
Lemma search_from_first (here : jsstring -> bool) (pre s : jsstring) (i : Z) :
  (forall p1 c p2, pre = p1 ++ c :: p2 -> here (c :: p2 ++ s) = false) ->
  here s = true ->
  search_from here (pre ++ s) i = (i + length pre)%Z.
Proof.
  revert i; induction pre as [|c pre IH]; intros i Hpre Hs.
  - cbn [app]. destruct s; cbn [search_from]; rewrite Hs; unfold length; cbn; lia.
  - cbn [app search_from].
    rewrite (Hpre [] c pre eq_refl).
    rewrite IH; [rewrite length_cons; lia | | exact Hs].
    intros p1 d p2 E. apply (Hpre (c :: p1) d p2). now rewrite E.
Qed.

(** The search fails when the pattern matches at no suffix. *)
Lemma search_from_nowhere (here : jsstring -> bool) (s : jsstring) (i : Z) :
  (forall p1 p2, s = p1 ++ p2 -> here p2 = false) ->
  search_from here s i = (-1)%Z.
Proof.
  revert i; induction s as [|c s IH]; intros i H.
  - cbn. now rewrite (H [] [] eq_refl).
  - cbn [search_from]. rewrite (H [] (c :: s) eq_refl).
    apply IH. intros p1 p2 E. apply (H (c :: p1) p2). now rewrite E.
Qed.

(** A search that succeeds found a suffix the pattern matches. *)
Lemma search_from_found (here : jsstring -> bool) (s : jsstring) (i : Z) :
  (0 <= i)%Z ->
  search_from here s i <> (-1)%Z ->
  exists p1 p2, s = p1 ++ p2 /\ here p2 = true.
Proof.
  revert i; induction s as [|c s IH]; intros i Hi H.
  - cbn in H. destruct (here []) eqn:E; [|congruence].
    now exists [], [].
  - cbn [search_from] in H. destruct (here (c :: s)) eqn:E.
    + now exists [], (c :: s).
    + destruct (IH (i + 1)%Z ltac:(lia) H) as (p1 & p2 & -> & Hp).
      now exists (c :: p1), p2.
Qed.

Lemma search_from_range (here : jsstring -> bool) (s : jsstring) (i : Z) :
  search_from here s i = (-1)%Z
  \/ (i <= search_from here s i <= i + length s)%Z.
Proof.
  revert i; induction s as [|c s IH]; intros i.
  - cbn. destruct (here []); [right; unfold length; cbn; lia | now left].
  - cbn [search_from]. destruct (here (c :: s)).
    + right. pose proof (length_nonneg (c :: s)). lia.
    + destruct (IH (i + 1)%Z) as [->|H]; [now left|right].
      rewrite length_cons. lia.
Qed.

Lemma search_from_hit (here : jsstring -> bool) (p1 p2 : jsstring) (i : Z) :
  (0 <= i)%Z -> here p2 = true -> search_from here (p1 ++ p2) i <> (-1)%Z.
Proof.
  revert i; induction p1 as [|c p1 IH]; intros i Hi Hp.
  - cbn [app]. destruct p2; cbn [search_from]; rewrite Hp; lia.
  - cbn [app search_from]. destruct (here (c :: p1 ++ p2)); [lia|].
    apply IH; [lia | exact Hp].
Qed.

Lemma matches_true_iff (here : jsstring -> bool) (s : jsstring) :
  matches here s = true <-> exists p1 p2, s = p1 ++ p2 /\ here p2 = true.
Proof.
  unfold matches, search. split.
  - intros H. apply (search_from_found here s 0); [lia|].
    intros E. rewrite E in H. discriminate.
  - intros (p1 & p2 & -> & Hp).
    apply negb_true_iff, Z.eqb_neq, search_from_hit; [lia | exact Hp].
Qed.

Lemma twoLines_embedded (s : jsstring) :
  ToggleDone.twoLines s = true -> Policy.embeddedLineBreak s.
Proof.
  induction s as [|c r IH]; cbn [ToggleDone.twoLines]; [discriminate|].
  intros H. apply andb_true_iff in H as [Hc H].
  apply orb_true_iff in H as [H|H].
  - destruct r as [|n [|d post]]; try discriminate.
    apply andb_true_iff in H as [Hn Hd].
    apply N.eqb_eq in Hn. subst n.
    now exists [], c, d, post.
  - destruct (IH H) as (pre & c' & d & post & -> & Hc' & Hd).
    now exists (c :: pre), c', d, post.
Qed.

(** The pattern ['.+\n.+'] matches somewhere exactly when the string holds
    a line feed between two characters that are no line terminators. *)
Lemma matches_twoLines_iff (s : jsstring) :
  matches ToggleDone.twoLines s = true <-> Policy.embeddedLineBreak s.
Proof.
  rewrite matches_true_iff. split.
  - intros (p1 & p2 & -> & H).
    destruct (twoLines_embedded p2 H) as (pre & c & d & post & -> & Hc & Hd).
    exists (p1 ++ pre), c, d, post. now rewrite <- app_assoc.
  - intros (pre & c & d & post & -> & Hc & Hd).
    exists pre, (c :: LF :: d :: post). split; [reflexivity|].
    cbn [ToggleDone.twoLines]. rewrite Hc, Hd, N.eqb_refl. reflexivity.
Qed.

Lemma search_firstBullet_at (s : jsstring) (p : Z) :
  Policy.firstDashOrAsteriskAt s p -> search ToggleDone.firstBullet s = p.
Proof.
  intros (pre & c & post & -> & Hpre & Hc & ->).
  unfold search. rewrite search_from_first; [lia | | exact Hc].
  intros p1 x p2 ->. rewrite forallb_app in Hpre.
  apply andb_true_iff in Hpre as [_ Hx]. cbn [forallb] in Hx.
  apply andb_true_iff in Hx as [Hx _]. apply negb_true_iff in Hx. exact Hx.
Qed.

Lemma search_firstBullet_none (s : jsstring) :
  Policy.noListMarker s -> search ToggleDone.firstBullet s = (-1)%Z.
Proof.
  intros H. apply search_from_nowhere. intros p1 [|x p2] ->; [reflexivity|].
  unfold Policy.noListMarker in H. rewrite forallb_app in H.
  apply andb_true_iff in H as [_ Hx]. cbn [forallb] in Hx.
  apply andb_true_iff in Hx as [Hx _]. apply negb_true_iff in Hx. exact Hx.
Qed.

(** ** The cursor-offset reconciler *)

Lemma doneDateSample_length : length ToggleDone.doneDateSample = 13%Z.
Proof. reflexivity. Qed.

(** C2. For an original offset between 0 and the length of the old line,
    the reconciled offset is never negative and never beyond the length
    of the new line. *)
Theorem calculateCursorOffset_within_new_line
  (originalOffset : Z) (oldLine newLine : jsstring) :
  (0 <= originalOffset <= length oldLine)%Z ->
  (0 <= ToggleDone.calculateCursorOffset originalOffset oldLine newLine
     <= length newLine)%Z.
Proof.
  intros H. unfold ToggleDone.calculateCursorOffset.
  rewrite doneDateSample_length.
  pose proof (length_nonneg newLine). pose proof (length_nonneg oldLine).
  split_tests; lia.
Qed.

Lemma calculateCursorOffset_within_new_line_witness :
  (0 <= 3 <= length (str "- a"))%Z
  /\ (0 <= ToggleDone.calculateCursorOffset 3 (str "- a") (str "- [ ] a")
        <= length (str "- [ ] a"))%Z.
Proof.
  split; [vm_compute; split; discriminate|].
  apply calculateCursorOffset_within_new_line. vm_compute; split; discriminate.
Defined.

(** C3. When the new line is no longer than the old one, the result is the
    original offset clamped to the length of the new line: the new length
    when the offset is at or past the new end, the offset itself otherwise;
    so the result never exceeds the length of the new line. *)
Theorem calculateCursorOffset_clamps_when_not_longer
  (originalOffset : Z) (oldLine newLine : jsstring) :
  (length newLine <= length oldLine)%Z ->
  ToggleDone.calculateCursorOffset originalOffset oldLine newLine
  = (if (length newLine <=? originalOffset)%Z then length newLine
     else originalOffset)
  /\ ToggleDone.calculateCursorOffset originalOffset oldLine newLine
     = Z.min originalOffset (length newLine)
  /\ (ToggleDone.calculateCursorOffset originalOffset oldLine newLine
      <= length newLine)%Z.
Proof.
  intros H. unfold ToggleDone.calculateCursorOffset.
  destruct (Z.leb_spec (length newLine) (length oldLine)); [|lia].
  rewrite Z.geb_leb.
  destruct (Z.leb_spec (length newLine) originalOffset); lia.
Qed.

Lemma calculateCursorOffset_clamps_when_not_longer_witness :
  (length (str "- [ ] a") <= length (str "- [x] done"))%Z
  /\ ToggleDone.calculateCursorOffset 9 (str "- [x] done") (str "- [ ] a") = 7%Z
  /\ ToggleDone.calculateCursorOffset 2 (str "- [x] done") (str "- [ ] a") = 2%Z.
Proof.
  split; [vm_compute; discriminate|]. split.
  - exact (proj1 (calculateCursorOffset_clamps_when_not_longer
                    9 (str "- [x] done") (str "- [ ] a")
                    ltac:(vm_compute; discriminate))).
  - exact (proj1 (calculateCursorOffset_clamps_when_not_longer
                    2 (str "- [x] done") (str "- [ ] a")
                    ltac:(vm_compute; discriminate))).
Defined.

(** C10. The reconciler reads the old line through its length only: two
    old lines of equal length give the same offset. *)
Theorem calculateCursorOffset_old_line_length_only
  (originalOffset : Z) (oldLine1 oldLine2 newLine : jsstring) :
  length oldLine1 = length oldLine2 ->
  ToggleDone.calculateCursorOffset originalOffset oldLine1 newLine
  = ToggleDone.calculateCursorOffset originalOffset oldLine2 newLine.
Proof.
  intros H. unfold ToggleDone.calculateCursorOffset. now rewrite H.
Qed.

Lemma calculateCursorOffset_old_line_length_only_witness :
  length (str "- a") = length (str "* b")
  /\ ToggleDone.calculateCursorOffset 2 (str "- a") (str "- [ ] a")
     = ToggleDone.calculateCursorOffset 2 (str "* b") (str "- [ ] a").
Proof.
  split; [reflexivity|].
  apply calculateCursorOffset_old_line_length_only. reflexivity.
Defined.

(** C4. On a new line that is strictly longer, the width 13 of the sample
    annotation is taken off the new length, before the remaining steps run,
    exactly when the new line matches the done-date pattern and grew by at
    least 13; when either condition fails the remaining steps run on the
    full new length. *)
Theorem calculateCursorOffset_done_date_compensation
  (originalOffset : Z) (oldLine newLine : jsstring) :
  (length oldLine < length newLine)%Z ->
  length ToggleDone.doneDateSample = 13%Z
  /\ (matches TaskRegularExpressions.doneDateRegex newLine = true ->
      (13 <= length newLine - length oldLine)%Z ->
      ToggleDone.calculateCursorOffset originalOffset oldLine newLine
      = Policy.remainingSteps originalOffset (length oldLine)
          (length newLine - 13) newLine)
  /\ (matches TaskRegularExpressions.doneDateRegex newLine = false
      \/ (length newLine - length oldLine < 13)%Z ->
      ToggleDone.calculateCursorOffset originalOffset oldLine newLine
      = Policy.remainingSteps originalOffset (length oldLine)
          (length newLine) newLine).
Proof.
  intros Hlen. split; [reflexivity|].
  unfold ToggleDone.calculateCursorOffset, Policy.remainingSteps.
  rewrite doneDateSample_length.
  destruct (Z.leb_spec (length newLine) (length oldLine)); [lia|].
  fold (matches ToggleDone.twoLines newLine).
  split.
  - intros -> Hgrow. rewrite !Z.geb_leb.
    destruct (Z.leb_spec 13 (length newLine - length oldLine)); [|lia].
    cbn [andb]. split_tests; lia.
  - intros [-> | Hgrow]; rewrite !Z.geb_leb.
    + cbn [andb]. split_tests; lia.
    + destruct (Z.leb_spec 13 (length newLine - length oldLine)); [lia|].
      rewrite andb_false_r. split_tests; lia.
Qed.

(** C5, as amended.  On a strictly longer new line whose adjusted length is
    at least twice the old length and which holds a line feed between two
    characters that are no line terminators, every offset is shifted right
    by the adjusted growth. *)
Theorem calculateCursorOffset_duplicated_line
  (originalOffset : Z) (oldLine newLine : jsstring) :
  (length oldLine < length newLine)%Z ->
  (2 * length oldLine <= Policy.adjustedLength oldLine newLine)%Z ->
  Policy.embeddedLineBreak newLine ->
  ToggleDone.calculateCursorOffset originalOffset oldLine newLine
  = (originalOffset + (Policy.adjustedLength oldLine newLine - length oldLine))%Z.
Proof.
  intros Hlen Hdouble Hbreak.
  apply matches_twoLines_iff in Hbreak.
  unfold ToggleDone.calculateCursorOffset, Policy.adjustedLength in *.
  rewrite doneDateSample_length.
  fold (matches ToggleDone.twoLines newLine). rewrite Hbreak.
  destruct (Z.leb_spec (length newLine) (length oldLine)); [lia|].
  rewrite !Z.geb_leb.
  destruct (matches TaskRegularExpressions.doneDateRegex newLine
            && (13 <=? length newLine - length oldLine)%Z).
  - destruct (Z.leb_spec (2 * length oldLine) (length newLine - 13)); [|lia].
    cbn [andb]. lia.
  - destruct (Z.leb_spec (2 * length oldLine) (length newLine)); [|lia].
    cbn [andb]. lia.
Qed.

(** Step 4 as the code runs it.  On a strictly longer new line that is
    not taken as a duplicated line: with the first dash or asterisk of
    the new line at offset [p], an offset strictly before [p] is returned
    unchanged and any other offset is shifted right by the adjusted
    growth; on a new line without a dash or an asterisk every cursor
    offset is shifted. *)
Lemma calculateCursorOffset_first_dash_or_asterisk
  (originalOffset : Z) (oldLine newLine : jsstring) :
  (length oldLine < length newLine)%Z ->
  ~ ((2 * length oldLine <= Policy.adjustedLength oldLine newLine)%Z
     /\ Policy.embeddedLineBreak newLine) ->
  (forall p, Policy.firstDashOrAsteriskAt newLine p ->
     ((originalOffset < p)%Z ->
      ToggleDone.calculateCursorOffset originalOffset oldLine newLine
      = originalOffset)
     /\ ((p <= originalOffset)%Z ->
         ToggleDone.calculateCursorOffset originalOffset oldLine newLine
         = (originalOffset
            + (Policy.adjustedLength oldLine newLine - length oldLine))%Z))
  /\ (Policy.noListMarker newLine -> (0 <= originalOffset)%Z ->
      ToggleDone.calculateCursorOffset originalOffset oldLine newLine
      = (originalOffset
         + (Policy.adjustedLength oldLine newLine - length oldLine))%Z).
Proof.
  intros Hlen Hnodup.
  assert (Hstep3 :
    ((2 * length oldLine <=? Policy.adjustedLength oldLine newLine)%Z
     && matches ToggleDone.twoLines newLine) = false).
  { apply not_true_is_false. intros H. apply andb_true_iff in H as [H1 H2].
    apply Hnodup. split; [now apply Z.leb_le | now apply matches_twoLines_iff]. }
  assert (Hcode : forall q, search ToggleDone.firstBullet newLine = q ->
    ToggleDone.calculateCursorOffset originalOffset oldLine newLine
    = if (originalOffset <? q)%Z then originalOffset
      else (originalOffset
            + (Policy.adjustedLength oldLine newLine - length oldLine))%Z).
  { intros q Hq. revert Hstep3.
    unfold ToggleDone.calculateCursorOffset, Policy.adjustedLength.
    rewrite doneDateSample_length, Hq.
    fold (matches ToggleDone.twoLines newLine).
    destruct (Z.leb_spec (length newLine) (length oldLine)); [lia|].
    rewrite !Z.geb_leb.
    destruct (matches TaskRegularExpressions.doneDateRegex newLine
              && (13 <=? length newLine - length oldLine)%Z);
      intros ->; destruct (originalOffset <? q)%Z; lia. }
  split.
  - intros p Hp. rewrite (Hcode p (search_firstBullet_at _ _ Hp)).
    split; intros H; [destruct (Z.ltb_spec originalOffset p)
                     | destruct (Z.ltb_spec originalOffset p)]; lia.
  - intros Hnone Hoff. rewrite (Hcode (-1)%Z (search_firstBullet_none _ Hnone)).
    destruct (Z.ltb_spec originalOffset (-1)); lia.
Qed.

Lemma calculateCursorOffset_done_date_compensation_witness :
  (length (str "- [ ] a") < length Examples.doneLine)%Z
  /\ ToggleDone.calculateCursorOffset 7 (str "- [ ] a") Examples.doneLine
     = Policy.remainingSteps 7 7 (20 - 13) Examples.doneLine.
Proof.
  split; [reflexivity|].
  exact (proj1 (proj2 (calculateCursorOffset_done_date_compensation
                         7 (str "- [ ] a") Examples.doneLine eq_refl))
           eq_refl ltac:(vm_compute; discriminate)).
Defined.

(** A line feed with any character on each side is not enough for C5:
    [" - a\r\n - b"] is more than twice as long as [" - a"] and holds a
    line feed between two characters, yet the offset 0 is returned
    unchanged and not shifted by the growth 6.  The character before the
    line feed is a carriage return, which the pattern ['.+\n.+'] does not
    accept. *)
Lemma calculateCursorOffset_crlf_not_shifted :
  (length (str " - a") < length Examples.crlfLines)%Z
  /\ (2 * length (str " - a")
      <= Policy.adjustedLength (str " - a") Examples.crlfLines)%Z
  /\ Policy.lineBreakBetweenCharacters Examples.crlfLines
  /\ ToggleDone.calculateCursorOffset 0 (str " - a") Examples.crlfLines = 0%Z
  /\ (0 + (Policy.adjustedLength (str " - a") Examples.crlfLines
           - length (str " - a")))%Z = 6%Z.
Proof.
  split; [reflexivity|].
  split; [vm_compute; discriminate|].
  split; [|split; reflexivity].
  exists (str " - a"), CR, 32%N, (str "- b"). reflexivity.
Qed.

Lemma calculateCursorOffset_duplicated_line_witness :
  (length (str " - a") < length Examples.lfLines)%Z
  /\ ToggleDone.calculateCursorOffset 0 (str " - a") Examples.lfLines
     = (0 + (Policy.adjustedLength (str " - a") Examples.lfLines
             - length (str " - a")))%Z.
Proof.
  split; [reflexivity|].
  apply calculateCursorOffset_duplicated_line.
  - reflexivity.
  - vm_compute; discriminate.
  - exists (str " - "), 97%N, 32%N, (str "- b"). repeat split; reflexivity.
Defined.


Lemma takeWhile_dropWhile (p : code_unit -> bool) (s : jsstring) :
  takeWhile p s ++ dropWhile p s = s.
Proof.
  induction s as [|c s IH]; [reflexivity|].
  cbn. destruct (p c); [cbn; now rewrite IH | reflexivity].
Qed.

Lemma takeWhile_all (p : code_unit -> bool) (s : jsstring) :
  forallb p (takeWhile p s) = true.
Proof.
  induction s as [|c s IH]; [reflexivity|].
  cbn. destruct (p c) eqn:E; [cbn; now rewrite E | reflexivity].
Qed.

Lemma dropWhile_head (p : code_unit -> bool) (s : jsstring) :
  Grammar.headIs p (dropWhile p s) = false.
Proof.
  induction s as [|c s IH]; [reflexivity|].
  cbn. destruct (p c) eqn:E; [exact IH | cbn; exact E].
Qed.

Lemma takeWhile_app (p : code_unit -> bool) (pre rest : jsstring) :
  forallb p pre = true -> Grammar.headIs p rest = false ->
  takeWhile p (pre ++ rest) = pre /\ dropWhile p (pre ++ rest) = rest.
Proof.
  intros Hpre Hrest. induction pre as [|c pre IH].
  - destruct rest as [|d rest]; [now split|].
    cbn in *. rewrite Hrest. now split.
  - cbn in *. apply andb_true_iff in Hpre as [-> Hpre].
    destruct (IH Hpre) as [-> ->]. now split.
Qed.

Lemma skipn_length_app (a b : jsstring) : skipn (List.length a) (a ++ b) = b.
Proof. induction a; [reflexivity | exact IHa]. Qed.

Lemma listMarker_inv (s marker rest : jsstring) :
  TaskRegularExpressions.listMarker s = Some (marker, rest) ->
  s = marker ++ rest /\ Grammar.isListMarkerText marker.
Proof.
  unfold TaskRegularExpressions.listMarker.
  destruct s as [|c r]; [discriminate|].
  destruct (TaskRegularExpressions.isBullet c) eqn:Hc.
  - intros [= <- <-]. split; [reflexivity|]. left. now exists c.
  - pose proof (takeWhile_dropWhile isDigit (c :: r)) as Hsplit.
    pose proof (takeWhile_all isDigit (c :: r)) as Hdigits.
    destruct (takeWhile isDigit (c :: r)) as [|d0 ds]; [discriminate|].
    destruct (dropWhile isDigit (c :: r)) as [|p r']; [discriminate|].
    destruct (N.eqb_spec p 46); [|discriminate].
    intros [= <- <-]. subst p. split.
    + rewrite <- Hsplit. cbn [app]. now rewrite <- app_assoc.
    + right. exists (d0 :: ds). repeat split; [discriminate | exact Hdigits].
Qed.

Lemma codePoint_inv (s symbol rest : jsstring) :
  TaskRegularExpressions.codePoint s = Some (symbol, rest) ->
  s = symbol ++ rest /\ Grammar.isStatusSymbol symbol.
Proof.
  unfold TaskRegularExpressions.codePoint.
  destruct s as [|c r]; [discriminate|].
  destruct (isLineTerminator c) eqn:Hc; [discriminate|].
  assert (Hdot : dot c = true) by (unfold dot; now rewrite Hc).
  destruct (isHighSurrogate c) eqn:Hh.
  - destruct r as [|d r'].
    + intros [= <- <-]. split; [reflexivity|]. left. now exists c.
    + destruct (isLowSurrogate d) eqn:Hl; intros [= <- <-].
      * split; [reflexivity|]. right. now exists c, d.
      * split; [reflexivity|]. left. now exists c.
  - intros [= <- <-]. split; [reflexivity|]. left. now exists c.
Qed.

(** What a match of [taskRegex] says about the line. *)
Lemma taskRegex_inv (line : jsstring) (m : RegExpMatch) :
  TaskRegularExpressions.taskRegex line = Some m ->
  exists indentation marker gap symbol pad body rest,
    m = mkMatch 0
          (indentation ++ marker ++ gap ++ [91%N] ++ symbol ++ [93%N]
           ++ pad ++ body)
          [indentation; marker; symbol; body]
    /\ line = indentation ++ marker ++ gap ++ [91%N] ++ symbol ++ [93%N]
              ++ pad ++ body ++ rest
    /\ forallb TaskRegularExpressions.isIndentation indentation = true
    /\ Grammar.isListMarkerText marker
    /\ gap <> [] /\ forallb isSpace gap = true
    /\ Grammar.isStatusSymbol symbol
    /\ forallb isSpace pad = true
    /\ forallb dot body = true
    /\ Grammar.headIs isSpace (body ++ rest) = false
    /\ Grammar.headIs dot rest = false.
Proof.
  unfold TaskRegularExpressions.taskRegex.
  pose proof (takeWhile_dropWhile TaskRegularExpressions.isIndentation line) as H0.
  pose proof (takeWhile_all TaskRegularExpressions.isIndentation line) as A0.
  set (indentation := takeWhile TaskRegularExpressions.isIndentation line) in *.
  destruct (TaskRegularExpressions.listMarker
              (dropWhile TaskRegularExpressions.isIndentation line))
    as [[marker r1]|] eqn:Hm; [|discriminate].
  apply listMarker_inv in Hm as [Hm1 Hm2]. rewrite Hm1 in H0. clear Hm1.
  pose proof (takeWhile_dropWhile isSpace r1) as H1.
  pose proof (takeWhile_all isSpace r1) as A1.
  destruct (takeWhile isSpace r1) as [|g0 gs]; [discriminate|].
  destruct (dropWhile isSpace r1) as [|b r2]; [discriminate|].
  destruct (N.eqb_spec b 91); [subst b|discriminate].
  destruct (TaskRegularExpressions.codePoint r2) as [[symbol r3]|] eqn:Hs;
    [|discriminate].
  apply codePoint_inv in Hs as [Hs1 Hs2].
  destruct r3 as [|e r4]; [discriminate|].
  destruct (N.eqb_spec e 93); [subst e|discriminate].
  intros [= <-].
  pose proof (takeWhile_dropWhile isSpace r4) as H4.
  pose proof (takeWhile_all isSpace r4) as A4.
  pose proof (dropWhile_head isSpace r4) as B4.
  pose proof (takeWhile_dropWhile dot (dropWhile isSpace r4)) as H5.
  pose proof (takeWhile_all dot (dropWhile isSpace r4)) as A5.
  pose proof (dropWhile_head dot (dropWhile isSpace r4)) as B5.
  exists indentation, marker, (g0 :: gs), symbol, (takeWhile isSpace r4),
    (takeWhile dot (dropWhile isSpace r4)),
    (dropWhile dot (dropWhile isSpace r4)).
  repeat split; try assumption; try discriminate; try reflexivity;
    unfold jsstring, code_unit in *.
  - rewrite H5, H4. subst r2 r1. symmetry. exact H0.
  - now rewrite H5.
Qed.

Lemma listItemRegex_inv (line : jsstring) (m : RegExpMatch) :
  TaskRegularExpressions.listItemRegex line = Some m ->
  exists indentation marker rest,
    m = mkMatch 0 (indentation ++ marker) [indentation; marker]
    /\ line = indentation ++ marker ++ rest
    /\ forallb TaskRegularExpressions.isIndentation indentation = true
    /\ Grammar.isListMarkerText marker.
Proof.
  unfold TaskRegularExpressions.listItemRegex.
  pose proof (takeWhile_dropWhile TaskRegularExpressions.isIndentation line) as H0.
  pose proof (takeWhile_all TaskRegularExpressions.isIndentation line) as A0.
  set (indentation := takeWhile TaskRegularExpressions.isIndentation line) in *.
  destruct (TaskRegularExpressions.listMarker
              (dropWhile TaskRegularExpressions.isIndentation line))
    as [[marker rest]|] eqn:Hm; [|discriminate].
  apply listMarker_inv in Hm as [Hm1 Hm2]. rewrite Hm1 in H0.
  intros [= <-]. exists indentation, marker, rest. now repeat split.
Qed.

(** A line that [taskRegex] matches is matched by [listItemRegex] too, so
    the order of the two tests decides which branch such a line takes. *)
Lemma taskRegex_listItemRegex (line : jsstring) (m : RegExpMatch) :
  TaskRegularExpressions.taskRegex line = Some m ->
  TaskRegularExpressions.listItemRegex line <> None.
Proof.
  unfold TaskRegularExpressions.taskRegex, TaskRegularExpressions.listItemRegex.
  destruct (TaskRegularExpressions.listMarker
              (dropWhile TaskRegularExpressions.isIndentation line))
    as [[marker r1]|]; discriminate.
Qed.

(** ** The patterns recognise exactly the lines of the grammar *)

Ltac class_cases :=
  repeat match goal with
         | H : context [(?a =? ?b)%N] |- _ => destruct (N.eqb_spec a b)
         | H : context [(?a <=? ?b)%N] |- _ => destruct (N.leb_spec a b)
         | |- context [(?a =? ?b)%N] => destruct (N.eqb_spec a b); try lia
         | |- context [(?a <=? ?b)%N] => destruct (N.leb_spec a b); try lia
         end;
  cbn in *; try discriminate; try lia; try reflexivity.

Lemma isBullet_not_indentation (c : code_unit) :
  TaskRegularExpressions.isBullet c = true ->
  TaskRegularExpressions.isIndentation c = false.
Proof.
  unfold TaskRegularExpressions.isBullet. intros H.
  apply orb_true_iff in H as [H|H]; apply N.eqb_eq in H; now subst c.
Qed.

Lemma isDigit_not_indentation (c : code_unit) :
  isDigit c = true -> TaskRegularExpressions.isIndentation c = false.
Proof.
  unfold isDigit, TaskRegularExpressions.isIndentation, isWhiteSpace.
  intros H. class_cases.
Qed.

Lemma isDigit_not_bullet (c : code_unit) :
  isDigit c = true -> TaskRegularExpressions.isBullet c = false.
Proof.
  unfold isDigit, TaskRegularExpressions.isBullet. intros H. class_cases.
Qed.

Lemma isHighSurrogate_dot (c : code_unit) :
  isHighSurrogate c = true -> isLineTerminator c = false.
Proof.
  unfold isHighSurrogate, isLineTerminator. intros H. class_cases.
Qed.

Lemma listMarker_head (marker rest : jsstring) :
  Grammar.isListMarkerText marker ->
  Grammar.headIs TaskRegularExpressions.isIndentation (marker ++ rest) = false.
Proof.
  intros [(c & -> & Hc) | (digits & -> & Hne & Hd)].
  - now apply isBullet_not_indentation.
  - destruct digits as [|d ds]; [congruence|].
    cbn in *. apply andb_true_iff in Hd as [Hd _].
    now apply isDigit_not_indentation.
Qed.

Lemma listMarker_complete (marker rest : jsstring) :
  Grammar.isListMarkerText marker ->
  TaskRegularExpressions.listMarker (marker ++ rest) = Some (marker, rest).
Proof.
  intros [(c & -> & Hc) | (digits & -> & Hne & Hd)].
  - cbn. now rewrite Hc.
  - destruct digits as [|d ds]; [congruence|].
    assert (Hd0 : isDigit d = true)
      by (cbn in Hd; now apply andb_true_iff in Hd as [? _]).
    rewrite <- app_assoc.
    unfold TaskRegularExpressions.listMarker. cbn [app].
    rewrite (isDigit_not_bullet d Hd0).
    destruct (takeWhile_app isDigit (d :: ds) ([46%N] ++ rest) Hd eq_refl)
      as [E1 E2].
    cbn [app] in E1, E2. unfold jsstring, code_unit in *.
    rewrite E1, E2. reflexivity.
Qed.

Lemma codePoint_complete (symbol rest : jsstring) :
  Grammar.isStatusSymbol symbol ->
  TaskRegularExpressions.codePoint (symbol ++ 93%N :: rest)
  = Some (symbol, 93%N :: rest).
Proof.
  intros [(c & -> & Hc) | (c & d & -> & Hc & Hd)];
    unfold TaskRegularExpressions.codePoint; cbn [app].
  - unfold dot in Hc. apply negb_true_iff in Hc. rewrite Hc.
    now destruct (isHighSurrogate c).
  - now rewrite (isHighSurrogate_dot c Hc), Hc, Hd.
Qed.

(** Every line of the shape the checklist pattern describes is matched,
    with its parts as the groups. *)
Lemma taskRegex_complete
  (indentation marker gap symbol pad body rest : jsstring) :
  forallb TaskRegularExpressions.isIndentation indentation = true ->
  Grammar.isListMarkerText marker ->
  gap <> [] -> forallb isSpace gap = true ->
  Grammar.isStatusSymbol symbol ->
  forallb isSpace pad = true ->
  forallb dot body = true ->
  Grammar.headIs isSpace (body ++ rest) = false ->
  Grammar.headIs dot rest = false ->
  TaskRegularExpressions.taskRegex
    (indentation ++ marker ++ gap ++ [91%N] ++ symbol ++ [93%N]
     ++ pad ++ body ++ rest)
  = Some (mkMatch 0
            (indentation ++ marker ++ gap ++ [91%N] ++ symbol ++ [93%N]
             ++ pad ++ body)
            [indentation; marker; symbol; body]).
Proof.
  intros Hind Hmk Hgap Agap Hsym Apad Abody Hbody Hrest.
  unfold TaskRegularExpressions.taskRegex.
  destruct (takeWhile_app _ indentation
              (marker ++ gap ++ [91%N] ++ symbol ++ [93%N] ++ pad ++ body ++ rest)
              Hind (listMarker_head _ _ Hmk)) as [-> ->].
  rewrite (listMarker_complete _ _ Hmk).
  destruct (takeWhile_app isSpace gap
              ([91%N] ++ symbol ++ [93%N] ++ pad ++ body ++ rest)
              Agap eq_refl) as [-> ->].
  destruct gap as [|g gs]; [congruence|].
  cbn [app]. rewrite N.eqb_refl.
  rewrite (codePoint_complete _ _ Hsym). rewrite N.eqb_refl.
  destruct (takeWhile_app isSpace pad (body ++ rest) Apad Hbody) as [-> ->].
  destruct (takeWhile_app dot body rest Abody Hrest) as [-> _].
  reflexivity.
Qed.

(** Every list item is matched by the list-item pattern. *)
Lemma listItemRegex_complete (indentation marker rest : jsstring) :
  forallb TaskRegularExpressions.isIndentation indentation = true ->
  Grammar.isListMarkerText marker ->
  TaskRegularExpressions.listItemRegex (indentation ++ marker ++ rest)
  = Some (mkMatch 0 (indentation ++ marker) [indentation; marker]).
Proof.
  intros Hind Hmk. unfold TaskRegularExpressions.listItemRegex.
  destruct (takeWhile_app _ indentation (marker ++ rest)
              Hind (listMarker_head _ _ Hmk)) as [-> ->].
  now rewrite (listMarker_complete _ _ Hmk).
Qed.

Lemma isoDateAtEnd_head (date : jsstring) :
  TaskRegularExpressions.isoDateAtEnd date = true ->
  Grammar.headIs isSpace date = false.
Proof.
  destruct date as [|y1 r]; [discriminate|].
  do 9 (destruct r as [|? r]; [discriminate|]).
  destruct r; [|discriminate].
  cbn [TaskRegularExpressions.isoDateAtEnd Grammar.headIs].
  intros H. repeat (apply andb_true_iff in H as [H _]).
  unfold isDigit, isSpace in *. class_cases.
Qed.

(** The done-date pattern matches exactly the strings that end in the
    check mark, any number of spaces and an ISO date. *)
Lemma matches_doneDateRegex_iff (s : jsstring) :
  matches TaskRegularExpressions.doneDateRegex s = true
  <-> exists pre spaces date,
        s = pre ++ 9989%N :: spaces ++ date
        /\ forallb isSpace spaces = true
        /\ TaskRegularExpressions.isoDateAtEnd date = true.
Proof.
  rewrite matches_true_iff. split.
  - intros (p1 & [|c r] & -> & H); [discriminate|].
    cbn [TaskRegularExpressions.doneDateRegex] in H.
    apply andb_true_iff in H as [Hc Hdate]. apply N.eqb_eq in Hc. subst c.
    exists p1, (takeWhile isSpace r), (dropWhile isSpace r).
    now rewrite takeWhile_dropWhile, takeWhile_all.
  - intros (pre & spaces & date & -> & Hsp & Hdate).
    exists pre, (9989%N :: spaces ++ date). split; [reflexivity|].
    cbn [TaskRegularExpressions.doneDateRegex]. rewrite N.eqb_refl.
    destruct (takeWhile_app isSpace spaces date Hsp (isoDateAtEnd_head _ Hdate))
      as [_ E].
    unfold jsstring, code_unit in *. rewrite E. exact Hdate.
Qed.

(** ** Replacement templates *)

Lemma GetSubstitution_plain (m : RegExpMatch) (s : jsstring)
  (c : code_unit) (t : jsstring) :
  (c =? 36)%N = false ->
  GetSubstitution m s (c :: t) = c :: GetSubstitution m s t.
Proof. intros H. cbn [GetSubstitution]. now rewrite H. Qed.

Lemma GetSubstitution_dollar (m : RegExpMatch) (s : jsstring)
  (d : code_unit) (t : jsstring) :
  Grammar.startsPattern d = false ->
  GetSubstitution m s (36%N :: d :: t) = 36%N :: GetSubstitution m s (d :: t).
Proof.
  unfold Grammar.startsPattern. intros H.
  apply orb_false_iff in H as [H Hd].
  apply orb_false_iff in H as [H H39].
  apply orb_false_iff in H as [H H96].
  apply orb_false_iff in H as [H36 H38].
  cbn [GetSubstitution]. rewrite N.eqb_refl, H36, H38, H96, H39, Hd.
  reflexivity.
Qed.

(** A text that stands for itself is copied by the expansion. *)
Lemma GetSubstitution_literal (m : RegExpMatch) (s text : jsstring)
  (next : code_unit) (t : jsstring) :
  Grammar.standsForItself text next = true ->
  GetSubstitution m s (text ++ next :: t)
  = text ++ GetSubstitution m s (next :: t).
Proof.
  induction text as [|c r IH]; [reflexivity|].
  cbn [Grammar.standsForItself]. intros H.
  apply andb_true_iff in H as [Hc Hr]. specialize (IH Hr).
  destruct (N.eqb_spec c 36) as [->|Hne].
  - cbn [negb orb] in Hc. apply negb_true_iff in Hc.
    destruct r as [|d r']; cbn [hd app] in *.
    + now rewrite GetSubstitution_dollar.
    + rewrite GetSubstitution_dollar by exact Hc. now rewrite IH.
  - cbn [app]. rewrite GetSubstitution_plain by now apply N.eqb_neq.
    now rewrite IH.
Qed.


Lemma isDigit_not_pattern_start (d : code_unit) :
  isDigit d = true ->
  (d =? 36)%N = false /\ (d =? 38)%N = false /\ (d =? 96)%N = false
  /\ (d =? 39)%N = false.
Proof.
  unfold isDigit. intros H. apply andb_true_iff in H as [H1 H2].
  apply N.leb_le in H1, H2.
  repeat split; apply N.eqb_neq; lia.
Qed.

(** [$n] before a character that is no digit expands to group [n]. *)
Lemma GetSubstitution_group (m : RegExpMatch) (s : jsstring)
  (d c : code_unit) (t : jsstring) :
  isDigit d = true -> isDigit c = false ->
  (1 <= digitValue d <= List.length (captures m))%nat ->
  GetSubstitution m s (36%N :: d :: c :: t)
  = capture m (digitValue d) ++ GetSubstitution m s (c :: t).
Proof.
  intros Hd Hc [H1 H2].
  destruct (isDigit_not_pattern_start d Hd) as (H36 & H38 & H96 & H39).
  apply Nat.leb_le in H1, H2.
  cbn [GetSubstitution].
  rewrite N.eqb_refl, H36, H38, H96, H39, Hd, Hc, H1, H2. reflexivity.
Qed.

(** [$n] at the end of the template expands to group [n]. *)
Lemma GetSubstitution_group_last (m : RegExpMatch) (s : jsstring)
  (d : code_unit) :
  isDigit d = true ->
  (1 <= digitValue d <= List.length (captures m))%nat ->
  GetSubstitution m s [36%N; d] = capture m (digitValue d).
Proof.
  intros Hd [H1 H2].
  destruct (isDigit_not_pattern_start d Hd) as (H36 & H38 & H96 & H39).
  apply Nat.leb_le in H1, H2.
  cbn [GetSubstitution].
  rewrite N.eqb_refl, H36, H38, H96, H39, Hd, H1, H2. apply app_nil_r.
Qed.

(** The replacement of the checklist branch, on a line [taskRegex]
    matches: groups 1 and 4 around a dash and the new status box, and the
    text after the match. *)
Lemma replace_taskRegex (line : jsstring) (m : RegExpMatch)
  (newStatusString : jsstring) :
  TaskRegularExpressions.taskRegex line = Some m ->
  Grammar.standsForItself newStatusString 93%N = true ->
  replace TaskRegularExpressions.taskRegex
    (str "$1- [" ++ newStatusString ++ str "] $4") line
  = capture m 1 ++ str "- [" ++ newStatusString ++ str "] " ++ capture m 4
    ++ skipn (List.length (matched m)) line.
Proof.
  intros Hm Hsym. unfold replace. rewrite Hm.
  destruct (taskRegex_inv line m Hm)
    as (ind & mk & gap & sym & pad & body & rest & -> & _).
  cbn [index matched firstn Nat.add].
  spell "$1- ["%string.
  spell "] $4"%string.
  spell "- ["%string.
  spell "] "%string.
  cbn [app].
  rewrite GetSubstitution_group by (try reflexivity; cbn; lia).
  rewrite !GetSubstitution_plain by reflexivity.
  rewrite GetSubstitution_literal by exact Hsym.
  rewrite !GetSubstitution_plain by reflexivity.
  rewrite GetSubstitution_group_last by (try reflexivity; cbn; lia).
  change (digitValue 49%N) with 1%nat. change (digitValue 52%N) with 4%nat.
  flatten_app. reflexivity.
Qed.

Lemma replace_listItemRegex (line : jsstring) (m : RegExpMatch) :
  TaskRegularExpressions.listItemRegex line = Some m ->
  replace TaskRegularExpressions.listItemRegex (str "$1$2 [ ]") line
  = capture m 1 ++ capture m 2 ++ str " [ ]"
    ++ skipn (List.length (matched m)) line.
Proof.
  intros Hm. unfold replace. rewrite Hm.
  destruct (listItemRegex_inv line m Hm) as (ind & mk & rest & -> & _).
  cbn [index matched firstn Nat.add].
  spell "$1$2 [ ]"%string.
  spell " [ ]"%string.
  rewrite !GetSubstitution_group by (try reflexivity; cbn; lia).
  rewrite !GetSubstitution_plain by reflexivity.
  change (digitValue 49%N) with 1%nat. change (digitValue 50%N) with 2%nat.
  cbn [GetSubstitution]. flatten_app. reflexivity.
Qed.

Lemma replace_indentationRegex (line : jsstring) :
  replace TaskRegularExpressions.indentationRegex (str "$1- ") line
  = takeWhile TaskRegularExpressions.isIndentation line ++ str "- "
    ++ dropWhile TaskRegularExpressions.isIndentation line.
Proof.
  unfold replace, TaskRegularExpressions.indentationRegex.
  cbn [index matched firstn Nat.add].
  spell "$1- "%string.
  spell "- "%string.
  rewrite GetSubstitution_group by (try reflexivity; cbn; lia).
  rewrite !GetSubstitution_plain by reflexivity.
  change (digitValue 49%N) with 1%nat.
  cbn [GetSubstitution capture captures Nat.sub nth app].
  flatten_app. do 3 f_equal.
  rewrite <- (takeWhile_dropWhile TaskRegularExpressions.isIndentation line) at 2.
  apply skipn_length_app.
Qed.

Section ToggleLine.

Variable Task : Type.
Variable fromLine : jsstring -> option Task.
Variable toggle : Task -> list Task.
Variable toFileLineString : Task -> jsstring.
Variable Status : Type.
Variable bySymbol : jsstring -> Status.
Variable nextStatusSymbol : Status -> jsstring.

Local Abbreviation toggleLine :=
  (ToggleDone.toggleLine Task fromLine toggle toFileLineString
     Status bySymbol nextStatusSymbol).

Lemma toggleLine_checklist_branch (line : jsstring) (m : RegExpMatch) :
  fromLine line = None ->
  TaskRegularExpressions.taskRegex line = Some m ->
  toggleLine line
  = replace TaskRegularExpressions.taskRegex
      (str "$1- [" ++ nextStatusSymbol (bySymbol (capture m 3)) ++ str "] $4")
      line.
Proof.
  intros Hf Hm. unfold ToggleDone.toggleLine. now rewrite Hf, Hm.
Qed.

Lemma toggleLine_list_item_branch (line : jsstring) (m : RegExpMatch) :
  fromLine line = None ->
  TaskRegularExpressions.taskRegex line = None ->
  TaskRegularExpressions.listItemRegex line = Some m ->
  toggleLine line
  = replace TaskRegularExpressions.listItemRegex (str "$1$2 [ ]") line.
Proof.
  intros Hf Ht Hm. unfold ToggleDone.toggleLine, test. now rewrite Hf, Ht, Hm.
Qed.

Lemma toggleLine_plain_text_branch (line : jsstring) :
  fromLine line = None ->
  TaskRegularExpressions.taskRegex line = None ->
  TaskRegularExpressions.listItemRegex line = None ->
  toggleLine line
  = replace TaskRegularExpressions.indentationRegex (str "$1- ") line.
Proof.
  intros Hf Ht Hm. unfold ToggleDone.toggleLine, test. now rewrite Hf, Ht, Hm.
Qed.

(** C1, as amended.  On a line that is no Task record and that the
    checklist pattern matches with a dash as its list marker, toggling
    keeps the indentation, the dash, the body and the text after it,
    puts the next status symbol in the box, and leaves exactly one space
    on each side of the box in place of the spaces that stood there. *)
Theorem toggleLine_checklist_item (line : jsstring) (m : RegExpMatch) :
  fromLine line = None ->
  TaskRegularExpressions.taskRegex line = Some m ->
  capture m 2 = str "-" ->
  Grammar.standsForItself (nextStatusSymbol (bySymbol (capture m 3))) 93%N
  = true ->
  exists gap pad rest,
    gap <> [] /\ forallb isSpace gap = true /\ forallb isSpace pad = true
    /\ Grammar.headIs isSpace (capture m 4 ++ rest) = false
    /\ line = capture m 1 ++ str "-" ++ gap
              ++ str "[" ++ capture m 3 ++ str "]"
              ++ pad ++ capture m 4 ++ rest
    /\ toggleLine line
       = capture m 1 ++ str "-" ++ str " "
         ++ str "[" ++ nextStatusSymbol (bySymbol (capture m 3)) ++ str "]"
         ++ str " " ++ capture m 4 ++ rest.
Proof.
  intros Hf Hm Hdash Hsym.
  rewrite (toggleLine_checklist_branch line m Hf Hm).
  rewrite (replace_taskRegex line m _ Hm Hsym).
  destruct (taskRegex_inv line m Hm)
    as (ind & mk & gap & sym & pad & body & rest
        & -> & Hline & _ & _ & Hgap & Agap & _ & Apad & _ & Hbody & _).
  assert (Hskip :
    skipn (List.length (ind ++ mk ++ gap ++ [91%N] ++ sym ++ [93%N]
                        ++ pad ++ body)) line = rest).
  { rewrite Hline.
    replace (ind ++ mk ++ gap ++ [91%N] ++ sym ++ [93%N] ++ pad ++ body ++ rest)
      with ((ind ++ mk ++ gap ++ [91%N] ++ sym ++ [93%N] ++ pad ++ body) ++ rest)
      by (now rewrite <- !app_assoc).
    apply skipn_length_app. }
  cbn [matched]. unfold jsstring, code_unit in *. rewrite Hskip.
  cbn [capture captures Nat.sub nth] in *. subst mk.
  exists gap, pad, rest. repeat split; assumption.
Qed.

(** C7. A line that is no Task record is tried against the checklist
    pattern first, then against the list-item pattern, and is plain text
    otherwise.  A list item gains the empty status box right after its
    list marker; plain text gains a dash and a space right after its
    leading indentation, so ["  Just text"] becomes ["  - Just text"]. *)
Theorem toggleLine_fallback_order (line : jsstring) :
  fromLine line = None ->
  (forall m, TaskRegularExpressions.taskRegex line = Some m ->
     TaskRegularExpressions.listItemRegex line <> None
     /\ toggleLine line
        = replace TaskRegularExpressions.taskRegex
            (str "$1- [" ++ nextStatusSymbol (bySymbol (capture m 3))
             ++ str "] $4") line)
  /\ (TaskRegularExpressions.taskRegex line = None ->
      forall m, TaskRegularExpressions.listItemRegex line = Some m ->
      exists rest,
        line = capture m 1 ++ capture m 2 ++ rest
        /\ forallb TaskRegularExpressions.isIndentation (capture m 1) = true
        /\ Grammar.isListMarkerText (capture m 2)
        /\ toggleLine line = capture m 1 ++ capture m 2 ++ str " [ ]" ++ rest)
  /\ (TaskRegularExpressions.taskRegex line = None ->
      TaskRegularExpressions.listItemRegex line = None ->
      forall indentation rest,
        line = indentation ++ rest ->
        forallb TaskRegularExpressions.isIndentation indentation = true ->
        Grammar.headIs TaskRegularExpressions.isIndentation rest = false ->
        toggleLine line = indentation ++ str "- " ++ rest)
  /\ (line = str "  Just text" -> toggleLine line = str "  - Just text").
Proof.
  intros Hf. split; [|split; [|split]].
  - intros m Hm. split.
    + exact (taskRegex_listItemRegex line m Hm).
    + exact (toggleLine_checklist_branch line m Hf Hm).
  - intros Ht m Hm.
    rewrite (toggleLine_list_item_branch line m Hf Ht Hm).
    rewrite (replace_listItemRegex line m Hm).
    destruct (listItemRegex_inv line m Hm)
      as (ind & mk & rest & -> & Hline & Hind & Hmk).
    cbn [capture captures Nat.sub nth matched].
    exists rest. repeat split; try assumption.
    do 3 f_equal. rewrite Hline, app_assoc. apply skipn_length_app.
  - intros Ht Hl ind rest Hline Hind Hrest.
    rewrite (toggleLine_plain_text_branch line Hf Ht Hl).
    rewrite replace_indentationRegex, Hline.
    now destruct (takeWhile_app _ ind rest Hind Hrest) as [-> ->].
  - intros ->.
    now rewrite (toggleLine_plain_text_branch _ Hf eq_refl eq_refl).
Qed.


End ToggleLine.

Lemma toggleLine_checklist_item_witness :
  exists gap pad rest,
    Examples.milk
    = str "-" ++ gap ++ str "[ ]" ++ pad ++ str "Buy milk" ++ rest
    /\ Examples.toggleLine Examples.milk = str "- [x] Buy milk" ++ rest.
Proof.
  destruct (toggleLine_checklist_item unit Examples.fromLine
              (fun _ => []) (fun _ => []) jsstring (fun symbol => symbol)
              Examples.nextStatusSymbol Examples.milk Examples.milkMatch
              eq_refl eq_refl eq_refl eq_refl)
    as (gap & pad & rest & _ & _ & _ & _ & Hline & Htoggle).
  exists gap, pad, rest. split; [exact Hline | exact Htoggle].
Defined.

(** The toggle of a checklist item is not in place, as C1 has it.
    Neither line below is a Task record and the checklist pattern matches
    both; toggling the first turns its asterisk into a dash, and toggling
    the second drops one of the two spaces before the box and puts a space
    after it, where a substitution in place gives ["* [x] a"] and
    ["-  [x]a"]. *)
Lemma toggleLine_checklist_item_not_in_place :
  (Examples.fromLine (str "* [ ] a") = None
   /\ TaskRegularExpressions.taskRegex (str "* [ ] a") <> None
   /\ Examples.toggleLine (str "* [ ] a") = str "- [x] a"
   /\ Examples.toggleLine (str "* [ ] a") <> str "* [x] a")
  /\ (Examples.fromLine (str "-  [ ]a") = None
      /\ TaskRegularExpressions.taskRegex (str "-  [ ]a") <> None
      /\ Examples.toggleLine (str "-  [ ]a") = str "- [x] a"
      /\ Examples.toggleLine (str "-  [ ]a") <> str "-  [x]a").
Proof.
  repeat split; try reflexivity; vm_compute; discriminate.
Qed.

Lemma toggleLine_fallback_order_witness :
  Examples.fromLine (str "  Just text") = None
  /\ Examples.toggleLine (str "  Just text") = str "  - Just text".
Proof.
  split; [reflexivity|].
  exact (proj2 (proj2 (proj2
           (toggleLine_fallback_order unit Examples.fromLine
              (fun _ => []) (fun _ => []) jsstring (fun symbol => symbol)
              Examples.nextStatusSymbol (str "  Just text") eq_refl)))
           eq_refl).
Defined.

(** ** The query entry point *)

Section QueryEntryPoint.

Variables Moment Priority Status State Query : Type.
Variable Status_DONE : Status.
Variable Status_eq : Status -> Status -> bool.
Variable PriorityUtils_toNumber : Priority -> Z.
Variable isWarm : State -> bool.
Variable newQuery : jsstring -> Query.
Variable error : Query -> option jsstring.
Variable applyQueryToTasks :
  Query -> list (Main.Task Moment Priority Status)
  -> Main.TaskGroups Moment Priority Status.

Local Abbreviation oneHotResolveQueryToTasks :=
  (Main.oneHotResolveQueryToTasks Moment Priority Status State Query
     Status_DONE Status_eq PriorityUtils_toNumber isWarm
     newQuery error applyQueryToTasks).

(** C9. When the query source does not compile, the promise is rejected
    with the error of the query, whatever the cache holds and whatever
    its state is: it is never fulfilled, so no task computed from the
    query reaches the caller. *)
Theorem oneHotResolveQueryToTasks_rejects_query_error
  (query : jsstring) (e : jsstring)
  (cacheTasks : list (Main.Task Moment Priority Status)) (state : State) :
  error (newQuery query) = Some e ->
  oneHotResolveQueryToTasks query cacheTasks state = Main.Rejected e
  /\ (forall tasksExternal,
        oneHotResolveQueryToTasks query cacheTasks state
        <> Main.Fulfilled tasksExternal)
  /\ (forall cacheTasks' state',
        oneHotResolveQueryToTasks query cacheTasks' state'
        = oneHotResolveQueryToTasks query cacheTasks state).
Proof.
  intros He.
  assert (R : forall tasks st,
             oneHotResolveQueryToTasks query tasks st = Main.Rejected e).
  { intros tasks st.
    unfold Main.oneHotResolveQueryToTasks, Main.cacheUpdateCallback.
    rewrite He. now destruct (isWarm st). }
  repeat split.
  - apply R.
  - intros tasksExternal. rewrite R. discriminate.
  - intros tasks st. now rewrite !R.
Qed.

(** X13. A query that compiles is answered, on a warm cache, with the
    tasks of its groups in the order of the groups, each as a
    [TaskExternal]; on a cache that is not warm the promise is rejected
    with the message of the cache. *)
Lemma oneHotResolveQueryToTasks_without_error
  (query : jsstring)
  (cacheTasks : list (Main.Task Moment Priority Status)) (state : State) :
  error (newQuery query) = None ->
  oneHotResolveQueryToTasks query cacheTasks state
  = if isWarm state then
      Main.Fulfilled
        (flat_map
           (fun group =>
              map (Main.newTaskExternal Moment Priority Status
                     Status_DONE Status_eq PriorityUtils_toNumber)
                (Main.tasks Moment Priority Status group))
           (Main.groups Moment Priority Status
              (applyQueryToTasks (newQuery query) cacheTasks)))
    else Main.Rejected Main.notWarm.
Proof.
  intros He.
  unfold Main.oneHotResolveQueryToTasks, Main.cacheUpdateCallback.
  rewrite He. destruct (isWarm state); [|reflexivity].
  cbn [Main.resolve]. f_equal.
  generalize (Main.groups Moment Priority Status
                (applyQueryToTasks (newQuery query) cacheTasks)) as gs.
  assert (G : forall gs acc,
    fold_left
      (fun acc0 group =>
         acc0 ++ map (Main.newTaskExternal Moment Priority Status
                        Status_DONE Status_eq PriorityUtils_toNumber)
                   (Main.tasks Moment Priority Status group)) gs acc
    = acc ++ flat_map
        (fun group =>
           map (Main.newTaskExternal Moment Priority Status
                  Status_DONE Status_eq PriorityUtils_toNumber)
             (Main.tasks Moment Priority Status group)) gs).
  { induction gs as [|g gs IH]; intros acc; cbn.
    - now rewrite app_nil_r.
    - now rewrite IH, app_assoc. }
  intros gs. apply (G gs []).
Qed.

End QueryEntryPoint.

Lemma oneHotResolveQueryToTasks_rejects_query_error_witness :
  Examples.error (str "sort by nothing")
  = Some (str "do not understand query: sort by nothing")
  /\ Main.oneHotResolveQueryToTasks unit unit unit bool jsstring
       tt (fun _ _ => true) (fun _ => 1%Z) (fun warm => warm)
       (fun source => source) Examples.error
       (fun _ tasks => Main.Build_TaskGroups _ _ _ [Main.Build_TaskGroup _ _ _ tasks])
       (str "sort by nothing") [] true
     = Main.Rejected (str "do not understand query: sort by nothing").
Proof.
  split; [reflexivity|].
  exact (proj1 (oneHotResolveQueryToTasks_rejects_query_error
                  unit unit unit bool jsstring
                  tt (fun _ _ => true) (fun _ => 1%Z) (fun warm => warm)
                  (fun source => source) Examples.error
                  (fun _ tasks =>
                     Main.Build_TaskGroups _ _ _ [Main.Build_TaskGroup _ _ _ tasks])
                  (str "sort by nothing")
                  (str "do not understand query: sort by nothing")
                  [] true eq_refl)).
Defined.

(** ** More on the cursor-offset reconciler *)

(** On a longer new line the reconciler runs steps 3 and 4 on the
    adjusted length. *)
Lemma calculateCursorOffset_longer
  (originalOffset : Z) (oldLine newLine : jsstring) :
  (length oldLine < length newLine)%Z ->
  ToggleDone.calculateCursorOffset originalOffset oldLine newLine
  = Policy.remainingSteps originalOffset (length oldLine)
      (Policy.adjustedLength oldLine newLine) newLine.
Proof.
  intros Hlen.
  unfold ToggleDone.calculateCursorOffset, Policy.remainingSteps,
    Policy.adjustedLength.
  rewrite doneDateSample_length.
  destruct (Z.leb_spec (length newLine) (length oldLine)); [lia|].
  fold (matches ToggleDone.twoLines newLine). rewrite !Z.geb_leb.
  destruct (matches TaskRegularExpressions.doneDateRegex newLine
            && (13 <=? length newLine - length oldLine)%Z);
    split_tests; lia.
Qed.

Lemma adjustedLength_range (oldLine newLine : jsstring) :
  (length oldLine < length newLine)%Z ->
  (length oldLine <= Policy.adjustedLength oldLine newLine
   <= length newLine)%Z.
Proof.
  intros H. unfold Policy.adjustedLength.
  destruct (matches TaskRegularExpressions.doneDateRegex newLine);
    cbn [andb]; [|lia].
  destruct (Z.leb_spec 13 (length newLine - length oldLine)); lia.
Qed.

(** X1. The reconciler keeps the order of cursor positions: of two
    offsets in the same old line, the one that was not after the other is
    not after it in the new line. *)
Theorem calculateCursorOffset_monotone
  (offset1 offset2 : Z) (oldLine newLine : jsstring) :
  (offset1 <= offset2)%Z ->
  (ToggleDone.calculateCursorOffset offset1 oldLine newLine
   <= ToggleDone.calculateCursorOffset offset2 oldLine newLine)%Z.
Proof.
  intros H. unfold ToggleDone.calculateCursorOffset.
  rewrite doneDateSample_length.
  set (first := search ToggleDone.firstBullet newLine).
  set (dup := negb (search ToggleDone.twoLines newLine =? -1)%Z).
  destruct dup; split_tests; lia.
Qed.

Lemma calculateCursorOffset_monotone_witness :
  (1 <= 2)%Z
  /\ (ToggleDone.calculateCursorOffset 1 (str "  a") (str "  - a")
      <= ToggleDone.calculateCursorOffset 2 (str "  a") (str "  - a"))%Z.
Proof.
  split; [vm_compute; discriminate|].
  apply calculateCursorOffset_monotone. vm_compute; discriminate.
Defined.

(** X2. When the new line is longer the cursor never moves left, and it
    moves right by no more than the line grew. *)
Theorem calculateCursorOffset_moves_right_at_most_growth
  (originalOffset : Z) (oldLine newLine : jsstring) :
  (length oldLine < length newLine)%Z ->
  (originalOffset
   <= ToggleDone.calculateCursorOffset originalOffset oldLine newLine
   <= originalOffset + (length newLine - length oldLine))%Z.
Proof.
  intros H. rewrite (calculateCursorOffset_longer _ _ _ H).
  pose proof (adjustedLength_range oldLine newLine H).
  unfold Policy.remainingSteps.
  destruct ((2 * length oldLine <=? Policy.adjustedLength oldLine newLine)%Z
            && matches ToggleDone.twoLines newLine); [lia|].
  destruct (originalOffset <? search ToggleDone.firstBullet newLine)%Z; lia.
Qed.

Lemma calculateCursorOffset_moves_right_at_most_growth_witness :
  (length (str "- a") < length (str "- [ ] a"))%Z
  /\ (3 <= ToggleDone.calculateCursorOffset 3 (str "- a") (str "- [ ] a")
      <= 3 + (length (str "- [ ] a") - length (str "- a")))%Z.
Proof.
  split; [reflexivity|].
  apply calculateCursorOffset_moves_right_at_most_growth. reflexivity.
Defined.

Lemma isoDateAtEnd_length (date : jsstring) :
  TaskRegularExpressions.isoDateAtEnd date = true -> length date = 10%Z.
Proof.
  destruct date as [|y1 r]; [discriminate|].
  do 9 (destruct r as [|? r]; [discriminate|]).
  destruct r; [reflexivity|discriminate].
Qed.

(** X3. Appending the done annotation, a space, the check mark, a space
    and an ISO date, leaves every cursor offset where it was. *)
Theorem calculateCursorOffset_done_date_appended
  (originalOffset : Z) (oldLine date : jsstring) :
  TaskRegularExpressions.isoDateAtEnd date = true ->
  ToggleDone.calculateCursorOffset originalOffset oldLine
    (oldLine ++ [32; 9989; 32]%N ++ date)
  = originalOffset.
Proof.
  intros Hdate.
  assert (Hlen : length (oldLine ++ [32; 9989; 32]%N ++ date)
                 = (length oldLine + 13)%Z).
  { rewrite !length_app, (isoDateAtEnd_length date Hdate). reflexivity. }
  assert (Hm : matches TaskRegularExpressions.doneDateRegex
                 (oldLine ++ [32; 9989; 32]%N ++ date) = true).
  { apply matches_doneDateRegex_iff.
    exists (oldLine ++ [32%N]), [32%N], date.
    rewrite <- app_assoc. now repeat split. }
  rewrite calculateCursorOffset_longer by lia.
  unfold Policy.adjustedLength, Policy.remainingSteps.
  rewrite Hm, Hlen. cbn [andb].
  destruct (Z.leb_spec 13 (length oldLine + 13 - length oldLine)); [|lia].
  split_tests; lia.
Qed.

Lemma calculateCursorOffset_done_date_appended_witness :
  TaskRegularExpressions.isoDateAtEnd (str "2024-01-01") = true
  /\ ToggleDone.calculateCursorOffset 7 (str "- [x] a")
       (str "- [x] a" ++ [32; 9989; 32]%N ++ str "2024-01-01") = 7%Z.
Proof.
  split; [reflexivity|].
  apply calculateCursorOffset_done_date_appended. reflexivity.
Defined.

(** ** More on [toggleLine] and on the cursor after a toggle *)

Lemma isIndentation_not_bullet (s : jsstring) :
  forallb TaskRegularExpressions.isIndentation s = true ->
  forallb (fun x => negb (TaskRegularExpressions.isBullet x)) s = true.
Proof.
  induction s as [|c s IH]; [reflexivity|].
  cbn [forallb]. intros H. apply andb_true_iff in H as [Hc Hs].
  rewrite (IH Hs), andb_true_r.
  destruct (TaskRegularExpressions.isBullet c) eqn:E; [|reflexivity].
  rewrite (isBullet_not_indentation c E) in Hc. discriminate.
Qed.

(** A string without a line feed is no duplicated line. *)
Lemma matches_twoLines_without_LF (s : jsstring) :
  ~ In LF s -> matches ToggleDone.twoLines s = false.
Proof.
  intros H. apply not_true_is_false. intros M.
  apply matches_twoLines_iff in M as (pre & c & d & post & -> & _).
  apply H, in_or_app. right. right. now left.
Qed.


(** The expansion of every checklist template starts with group 1, a
    dash, a space and an opening bracket. *)
Lemma GetSubstitution_checklist_prefix (m : RegExpMatch) (s t : jsstring) :
  captures m <> [] ->
  GetSubstitution m s (str "$1- [" ++ t)
  = capture m 1 ++ str "- [" ++ GetSubstitution m s t.
Proof.
  intros H. spell "$1- ["%string. spell "- ["%string. cbn [app].
  rewrite GetSubstitution_group;
    [| reflexivity | reflexivity
     | destruct (captures m); [congruence | cbn; lia]].
  now rewrite !GetSubstitution_plain by reflexivity.
Qed.

Section ToggleLineMore.

Variable Task : Type.
Variable fromLine : jsstring -> option Task.
Variable toggle : Task -> list Task.
Variable toFileLineString : Task -> jsstring.
Variable Status : Type.
Variable bySymbol : jsstring -> Status.
Variable nextStatusSymbol : Status -> jsstring.

Local Abbreviation toggleLine :=
  (ToggleDone.toggleLine Task fromLine toggle toFileLineString
     Status bySymbol nextStatusSymbol).

Lemma toggleLine_plain_text_shape (line : jsstring) :
  fromLine line = None ->
  TaskRegularExpressions.taskRegex line = None ->
  TaskRegularExpressions.listItemRegex line = None ->
  toggleLine line
  = takeWhile TaskRegularExpressions.isIndentation line ++ str "- "
    ++ dropWhile TaskRegularExpressions.isIndentation line.
Proof.
  intros Hf Ht Hl.
  rewrite (toggleLine_plain_text_branch Task fromLine toggle toFileLineString
             Status bySymbol nextStatusSymbol line Hf Ht Hl).
  apply replace_indentationRegex.
Qed.

Lemma toggleLine_list_item_shape (line : jsstring) (m : RegExpMatch) :
  fromLine line = None ->
  TaskRegularExpressions.taskRegex line = None ->
  TaskRegularExpressions.listItemRegex line = Some m ->
  exists rest,
    line = capture m 1 ++ capture m 2 ++ rest
    /\ forallb TaskRegularExpressions.isIndentation (capture m 1) = true
    /\ Grammar.isListMarkerText (capture m 2)
    /\ toggleLine line = capture m 1 ++ capture m 2 ++ str " [ ]" ++ rest.
Proof.
  intros Hf Ht Hm.
  rewrite (toggleLine_list_item_branch Task fromLine toggle toFileLineString
             Status bySymbol nextStatusSymbol line m Hf Ht Hm).
  rewrite (replace_listItemRegex line m Hm).
  destruct (listItemRegex_inv line m Hm)
    as (ind & mk & rest & -> & Hline & Hind & Hmk).
  cbn [capture captures Nat.sub nth matched].
  exists rest. repeat split; try assumption.
  do 3 f_equal. rewrite Hline, app_assoc. apply skipn_length_app.
Qed.

(** X4. Toggling a line of plain text makes it a list item: the result
    is matched by the list-item pattern, with the indentation of the line
    and a dash as its groups, and is two characters longer. *)
Theorem toggleLine_plain_text_becomes_list_item (line : jsstring) :
  fromLine line = None ->
  TaskRegularExpressions.taskRegex line = None ->
  TaskRegularExpressions.listItemRegex line = None ->
  TaskRegularExpressions.listItemRegex (toggleLine line)
  = Some (mkMatch 0
            (takeWhile TaskRegularExpressions.isIndentation line ++ str "-")
            [takeWhile TaskRegularExpressions.isIndentation line; str "-"])
  /\ length (toggleLine line) = (length line + 2)%Z.
Proof.
  intros Hf Ht Hl. rewrite (toggleLine_plain_text_shape line Hf Ht Hl). split.
  - apply (listItemRegex_complete _ (str "-")
             (str " " ++ dropWhile TaskRegularExpressions.isIndentation line)).
    + apply takeWhile_all.
    + left. now exists 45%N.
  - rewrite <- (takeWhile_dropWhile TaskRegularExpressions.isIndentation line)
      at 3.
    rewrite !length_app. change (length (str "- ")) with 2%Z. lia.
Qed.

(** X5. Toggling a list item makes it a checklist item with an empty
    box: the result is matched by the checklist pattern with the same
    indentation and list marker and a space as its status symbol, and is
    four characters longer. *)
Theorem toggleLine_list_item_becomes_checklist_item
  (line : jsstring) (m : RegExpMatch) :
  fromLine line = None ->
  TaskRegularExpressions.taskRegex line = None ->
  TaskRegularExpressions.listItemRegex line = Some m ->
  (exists m',
     TaskRegularExpressions.taskRegex (toggleLine line) = Some m'
     /\ capture m' 1 = capture m 1
     /\ capture m' 2 = capture m 2
     /\ capture m' 3 = str " ")
  /\ length (toggleLine line) = (length line + 4)%Z.
Proof.
  intros Hf Ht Hm.
  destruct (toggleLine_list_item_shape line m Hf Ht Hm)
    as (rest & Hline & Hind & Hmk & ->).
  split.
  - pose proof (taskRegex_complete (capture m 1) (capture m 2) (str " ")
                  (str " ") (takeWhile isSpace rest)
                  (takeWhile dot (dropWhile isSpace rest))
                  (dropWhile dot (dropWhile isSpace rest))
                  Hind Hmk) as C.
    rewrite !takeWhile_dropWhile in C.
    eexists. split.
    + apply C; try reflexivity; try discriminate.
      * left. now exists 32%N.
      * apply takeWhile_all.
      * apply takeWhile_all.
      * apply dropWhile_head.
      * apply dropWhile_head.
    + now repeat split.
  - rewrite Hline at 1. rewrite !length_app.
    change (length (str " [ ]")) with 4%Z. lia.
Qed.

(** X6. After a toggle a line that is no Task record is at least a list
    item: the list-item pattern matches the result, whichever of the
    three fallback branches produced it. *)
Theorem toggleLine_result_is_list_item (line : jsstring) :
  fromLine line = None ->
  TaskRegularExpressions.listItemRegex (toggleLine line) <> None.
Proof.
  intros Hf.
  destruct (TaskRegularExpressions.taskRegex line) as [m|] eqn:Ht.
  - rewrite (toggleLine_checklist_branch Task fromLine toggle toFileLineString
               Status bySymbol nextStatusSymbol line m Hf Ht).
    unfold replace. rewrite Ht.
    destruct (taskRegex_inv line m Ht)
      as (ind & mk & gap & sym & pad & body & rest & -> & _ & Hind & _).
    cbn [index firstn app].
    rewrite GetSubstitution_checklist_prefix by discriminate.
    cbn [capture captures Nat.sub nth].
    change (str "- [") with (str "-" ++ str " [").
    rewrite <- !app_assoc.
    rewrite (listItemRegex_complete ind (str "-")); [discriminate|exact Hind|].
    left. now exists 45%N.
  - destruct (TaskRegularExpressions.listItemRegex line) as [m|] eqn:Hl.
    + destruct (toggleLine_list_item_shape line m Hf Ht Hl)
        as (rest & _ & Hind & Hmk & ->).
      now rewrite (listItemRegex_complete _ _ _ Hind Hmk).
    + rewrite (toggleLine_plain_text_shape line Hf Ht Hl).
      rewrite (listItemRegex_complete _ (str "-")
                 (str " " ++ dropWhile TaskRegularExpressions.isIndentation line));
        [discriminate | apply takeWhile_all |].
      left. now exists 45%N.
Qed.



(** X8. The cursor after plain text became a list item, on a line without
    a line feed: an offset inside the leading indentation stays, every
    other offset moves right by the two characters of the new marker. *)
Theorem cursor_after_plain_text_toggle (originalOffset : Z) (line : jsstring) :
  fromLine line = None ->
  TaskRegularExpressions.taskRegex line = None ->
  TaskRegularExpressions.listItemRegex line = None ->
  ~ In LF line ->
  ToggleDone.calculateCursorOffset originalOffset line (toggleLine line)
  = if (originalOffset
        <? length (takeWhile TaskRegularExpressions.isIndentation line))%Z
    then originalOffset
    else (originalOffset + 2)%Z.
Proof.
  intros Hf Ht Hl Hlf.
  rewrite (toggleLine_plain_text_shape line Hf Ht Hl).
  pose proof (takeWhile_dropWhile TaskRegularExpressions.isIndentation line)
    as Hsplit.
  pose proof (takeWhile_all TaskRegularExpressions.isIndentation line) as Hind.
  set (ind := takeWhile TaskRegularExpressions.isIndentation line) in *.
  set (rest := dropWhile TaskRegularExpressions.isIndentation line) in *.
  assert (Hlen : length (ind ++ str "- " ++ rest) = (length line + 2)%Z).
  { rewrite <- Hsplit, !length_app. change (length (str "- ")) with 2%Z. lia. }
  rewrite calculateCursorOffset_longer by lia.
  unfold Policy.adjustedLength, Policy.remainingSteps. rewrite Hlen.
  destruct (Z.leb_spec 13 (length line + 2 - length line)); [lia|].
  rewrite andb_false_r.
  rewrite matches_twoLines_without_LF, andb_false_r.
  - rewrite (search_firstBullet_at _ (length ind)).
    + destruct (originalOffset <? length ind)%Z; lia.
    + exists ind, 45%N, (32%N :: rest).
      repeat split. now apply isIndentation_not_bullet.
  - intros Hin. apply Hlf. rewrite <- Hsplit.
    apply in_app_or in Hin as [Hin|Hin]; [apply in_or_app; now left|].
    apply in_app_or in Hin as [Hin|Hin]; [|apply in_or_app; now right].
    cbn in Hin. unfold LF in Hin.
    destruct Hin as [Hin|[Hin|[]]]; discriminate.
Qed.

(** X9. The cursor after a bulleted list item gained its status box, on
    a line without a line feed: an offset inside the leading indentation
    stays, every other offset moves right by the four characters of the
    box. *)
Theorem cursor_after_bulleted_list_item_toggle
  (originalOffset : Z) (line : jsstring) (m : RegExpMatch) :
  fromLine line = None ->
  TaskRegularExpressions.taskRegex line = None ->
  TaskRegularExpressions.listItemRegex line = Some m ->
  Grammar.headIs TaskRegularExpressions.isBullet (capture m 2) = true ->
  ~ In LF line ->
  ToggleDone.calculateCursorOffset originalOffset line (toggleLine line)
  = if (originalOffset <? length (capture m 1))%Z
    then originalOffset
    else (originalOffset + 4)%Z.
Proof.
  intros Hf Ht Hm Hbullet Hlf.
  destruct (toggleLine_list_item_shape line m Hf Ht Hm)
    as (rest & Hline & Hind & Hmk & ->).
  set (ind := capture m 1) in *. set (mk := capture m 2) in *.
  assert (Hlen : length (ind ++ mk ++ str " [ ]" ++ rest)
                 = (length line + 4)%Z).
  { rewrite Hline at 1. rewrite !length_app.
    change (length (str " [ ]")) with 4%Z. lia. }
  rewrite calculateCursorOffset_longer by lia.
  unfold Policy.adjustedLength, Policy.remainingSteps. rewrite Hlen.
  destruct (Z.leb_spec 13 (length line + 4 - length line)); [lia|].
  rewrite andb_false_r.
  rewrite matches_twoLines_without_LF, andb_false_r.
  - rewrite (search_firstBullet_at _ (length ind)).
    + destruct (originalOffset <? length ind)%Z; lia.
    + destruct mk as [|c mk']; [discriminate|].
      exists ind, c, (mk' ++ str " [ ]" ++ rest).
      repeat split; [now apply isIndentation_not_bullet | exact Hbullet].
  - intros Hin. apply Hlf. rewrite Hline.
    apply in_app_or in Hin as [Hin|Hin]; [apply in_or_app; now left|].
    apply in_app_or in Hin as [Hin|Hin];
      [apply in_or_app; right; apply in_or_app; now left|].
    apply in_app_or in Hin as [Hin|Hin];
      [|apply in_or_app; right; apply in_or_app; now right].
    cbn in Hin. unfold LF in Hin.
    destruct Hin as [Hin|[Hin|[Hin|[Hin|[]]]]]; discriminate.
Qed.


End ToggleLineMore.

Lemma toggleLine_plain_text_becomes_list_item_witness :
  TaskRegularExpressions.listItemRegex (str "  Just text") = None
  /\ length (Examples.toggleLine (str "  Just text")) = 13%Z.
Proof.
  split; [reflexivity|].
  exact (proj2 (toggleLine_plain_text_becomes_list_item
                  unit Examples.fromLine (fun _ => []) (fun _ => [])
                  jsstring (fun symbol => symbol) Examples.nextStatusSymbol
                  (str "  Just text") eq_refl eq_refl eq_refl)).
Defined.

Lemma toggleLine_list_item_becomes_checklist_item_witness :
  TaskRegularExpressions.listItemRegex (str "- foo")
  = Some (mkMatch 0 (str "-") [[]; str "-"])
  /\ length (Examples.toggleLine (str "- foo")) = 9%Z.
Proof.
  split; [reflexivity|].
  exact (proj2 (toggleLine_list_item_becomes_checklist_item
                  unit Examples.fromLine (fun _ => []) (fun _ => [])
                  jsstring (fun symbol => symbol) Examples.nextStatusSymbol
                  (str "- foo") (mkMatch 0 (str "-") [[]; str "-"])
                  eq_refl eq_refl eq_refl)).
Defined.

Lemma toggleLine_result_is_list_item_witness :
  Examples.fromLine Examples.milk = None
  /\ TaskRegularExpressions.listItemRegex (Examples.toggleLine Examples.milk)
     <> None.
Proof.
  split; [reflexivity|].
  exact (toggleLine_result_is_list_item
           unit Examples.fromLine (fun _ => []) (fun _ => [])
           jsstring (fun symbol => symbol) Examples.nextStatusSymbol
           Examples.milk eq_refl).
Defined.


Lemma cursor_after_plain_text_toggle_witness :
  ~ In LF (str "  Just text")
  /\ ToggleDone.calculateCursorOffset 1 (str "  Just text")
       (Examples.toggleLine (str "  Just text")) = 1%Z
  /\ ToggleDone.calculateCursorOffset 2 (str "  Just text")
       (Examples.toggleLine (str "  Just text")) = 4%Z.
Proof.
  split; [no_line_feed|]. split.
  - exact (cursor_after_plain_text_toggle
             unit Examples.fromLine (fun _ => []) (fun _ => [])
             jsstring (fun symbol => symbol) Examples.nextStatusSymbol
             1 (str "  Just text") eq_refl eq_refl eq_refl
             ltac:(no_line_feed)).
  - exact (cursor_after_plain_text_toggle
             unit Examples.fromLine (fun _ => []) (fun _ => [])
             jsstring (fun symbol => symbol) Examples.nextStatusSymbol
             2 (str "  Just text") eq_refl eq_refl eq_refl
             ltac:(no_line_feed)).
Defined.

Lemma cursor_after_bulleted_list_item_toggle_witness :
  TaskRegularExpressions.listItemRegex (str " * foo")
  = Some (mkMatch 0 (str " *") [str " "; str "*"])
  /\ ToggleDone.calculateCursorOffset 0 (str " * foo")
       (Examples.toggleLine (str " * foo")) = 0%Z
  /\ ToggleDone.calculateCursorOffset 3 (str " * foo")
       (Examples.toggleLine (str " * foo")) = 7%Z.
Proof.
  split; [reflexivity|]. split.
  - exact (cursor_after_bulleted_list_item_toggle
             unit Examples.fromLine (fun _ => []) (fun _ => [])
             jsstring (fun symbol => symbol) Examples.nextStatusSymbol
             0 (str " * foo") (mkMatch 0 (str " *") [str " "; str "*"])
             eq_refl eq_refl eq_refl eq_refl ltac:(no_line_feed)).
  - exact (cursor_after_bulleted_list_item_toggle
             unit Examples.fromLine (fun _ => []) (fun _ => [])
             jsstring (fun symbol => symbol) Examples.nextStatusSymbol
             3 (str " * foo") (mkMatch 0 (str " *") [str " "; str "*"])
             eq_refl eq_refl eq_refl eq_refl ltac:(no_line_feed)).
Defined.


(** ** The command [toggleDone] *)

Section ToggleDoneCommand.

Variable Editor : Type.
Variable getCursor : Editor -> Command.EditorPosition.
Variable getLine : Z -> Editor -> jsstring.
Variable setLine : Z -> jsstring -> Editor -> Editor.
Variable setCursor : Command.EditorPosition -> Editor -> Editor.
Variable View : Type.
Variable isMarkdownView : View -> bool.
Variable filePath : View -> option jsstring.
Variable Task : Type.
Variable fromLine : jsstring -> option Task.
Variable toggle : Task -> list Task.
Variable toFileLineString : Task -> jsstring.
Variable Status : Type.
Variable bySymbol : jsstring -> Status.
Variable nextStatusSymbol : Status -> jsstring.

Local Abbreviation toggleDone :=
  (Command.toggleDone Editor getCursor getLine setLine setCursor
     View isMarkdownView filePath
     Task fromLine toggle toFileLineString Status bySymbol nextStatusSymbol).
Local Abbreviation toggleLine :=
  (ToggleDone.toggleLine Task fromLine toggle toFileLineString
     Status bySymbol nextStatusSymbol).

(** X11. The command writes to the editor only when it is run, not
    checked, in a markdown view that has a file.  In every other case
    the editor is left as it was; a check answers whether the view is a
    markdown view, a run answers nothing. *)
Theorem toggleDone_leaves_editor_alone
  (checking : bool) (editor : Editor) (view : View) :
  checking = true \/ isMarkdownView view = false \/ filePath view = None ->
  toggleDone checking editor view
  = (if checking then Some (isMarkdownView view) else None, editor).
Proof.
  unfold Command.toggleDone.
  destruct checking; [intros _; now destruct (isMarkdownView view)|].
  intros [H|[H|H]]; [discriminate| |].
  - now rewrite H.
  - rewrite H. now destruct (isMarkdownView view).
Qed.

(** X12. A run of the command in a markdown view with a file leaves the
    cursor on its line and, when the cursor stood inside the line, sets
    it to an offset inside the toggled line.  The editor is any one that
    reports the cursor it was last given. *)
Theorem toggleDone_cursor_stays_in_line
  (editor : Editor) (view : View) (path : jsstring) :
  (forall p e, getCursor (setCursor p e) = p) ->
  isMarkdownView view = true ->
  filePath view = Some path ->
  (0 <= Command.ch (getCursor editor)
   <= length (getLine (Command.line (getCursor editor)) editor))%Z ->
  fst (toggleDone false editor view) = None
  /\ Command.line (getCursor (snd (toggleDone false editor view)))
     = Command.line (getCursor editor)
  /\ (0 <= Command.ch (getCursor (snd (toggleDone false editor view)))
      <= length (toggleLine
                   (getLine (Command.line (getCursor editor)) editor)))%Z.
Proof.
  intros Hlaw Hmd Hpath Hch.
  unfold Command.toggleDone. rewrite Hmd, Hpath.
  cbn [negb fst snd]. rewrite Hlaw. cbn [Command.line Command.ch].
  split; [reflexivity|]. split; [reflexivity|].
  set (old := getLine (Command.line (getCursor editor)) editor) in *.
  set (new := toggleLine old).
  unfold ToggleDone.calculateCursorOffset.
  rewrite doneDateSample_length.
  pose proof (length_nonneg new). pose proof (length_nonneg old).
  split_tests; lia.
Qed.

End ToggleDoneCommand.

Lemma toggleDone_leaves_editor_alone_witness :
  Instances.toggleDone true Instances.note Instances.markdownView
  = (Some true, Instances.note)
  /\ Instances.toggleDone false Instances.note (false, None)
     = (None, Instances.note).
Proof.
  split.
  - exact (toggleDone_leaves_editor_alone
             Instances.Buffer Instances.getCursor Instances.getLine
             Instances.setLine Instances.setCursor
             (bool * option jsstring) fst snd
             unit Examples.fromLine (fun _ => []) (fun _ => [])
             jsstring (fun symbol => symbol) Examples.nextStatusSymbol
             true Instances.note Instances.markdownView
             (or_introl eq_refl)).
  - exact (toggleDone_leaves_editor_alone
             Instances.Buffer Instances.getCursor Instances.getLine
             Instances.setLine Instances.setCursor
             (bool * option jsstring) fst snd
             unit Examples.fromLine (fun _ => []) (fun _ => [])
             jsstring (fun symbol => symbol) Examples.nextStatusSymbol
             false Instances.note (false, None)
             (or_intror (or_introl eq_refl))).
Defined.

Lemma toggleDone_cursor_stays_in_line_witness :
  Instances.text
    (snd (Instances.toggleDone false Instances.note Instances.markdownView))
  = [str "# Shopping"; str "  - Just text"]
  /\ Command.line (Instances.getCursor
       (snd (Instances.toggleDone false Instances.note
               Instances.markdownView))) = 1%Z
  /\ (0 <= Command.ch (Instances.getCursor
             (snd (Instances.toggleDone false Instances.note
                     Instances.markdownView)))
      <= length (Examples.toggleLine (str "  Just text")))%Z.
Proof.
  split; [reflexivity|].
  exact (proj2 (toggleDone_cursor_stays_in_line
                  Instances.Buffer Instances.getCursor Instances.getLine
                  Instances.setLine Instances.setCursor
                  (bool * option jsstring) fst snd
                  unit Examples.fromLine (fun _ => []) (fun _ => [])
                  jsstring (fun symbol => symbol) Examples.nextStatusSymbol
                  Instances.note Instances.markdownView (str "Shopping.md")
                  (fun p e => eq_refl) eq_refl eq_refl
                  ltac:(vm_compute; split; discriminate))).
Defined.

(** ** More on the query entry point *)

Section QueryEntryPointMore.

Variables Moment Priority Status State Query : Type.
Variable Status_DONE : Status.
Variable Status_eq : Status -> Status -> bool.
Variable PriorityUtils_toNumber : Priority -> Z.
Variable isWarm : State -> bool.
Variable newQuery : jsstring -> Query.
Variable error : Query -> option jsstring.
Variable applyQueryToTasks :
  Query -> list (Main.Task Moment Priority Status)
  -> Main.TaskGroups Moment Priority Status.

(** X14. Once the cache has answered, the promise is settled: it is
    fulfilled or rejected, never left pending, whatever the query, the
    tasks and the state of the cache are. *)
Theorem oneHotResolveQueryToTasks_settles
  (query : jsstring)
  (cacheTasks : list (Main.Task Moment Priority Status)) (state : State) :
  Main.oneHotResolveQueryToTasks Moment Priority Status State Query
    Status_DONE Status_eq PriorityUtils_toNumber isWarm
    newQuery error applyQueryToTasks query cacheTasks state
  <> Main.Pending.
Proof.
  unfold Main.oneHotResolveQueryToTasks, Main.cacheUpdateCallback.
  destruct (error (newQuery query)), (isWarm state); discriminate.
Qed.

End QueryEntryPointMore.

Lemma oneHotResolveQueryToTasks_without_error_witness :
  Examples.error [] = None
  /\ Main.oneHotResolveQueryToTasks unit unit unit bool jsstring
       tt (fun _ _ => true) (fun _ => 1%Z) (fun warm => warm)
       (fun source => source) Examples.error
       (fun _ tasks =>
          Main.Build_TaskGroups _ _ _ [Main.Build_TaskGroup _ _ _ tasks])
       [] [] false
     = Main.Rejected Main.notWarm.
Proof.
  split; [reflexivity|].
  exact (oneHotResolveQueryToTasks_without_error
           unit unit unit bool jsstring
           tt (fun _ _ => true) (fun _ => 1%Z) (fun warm => warm)
           (fun source => source) Examples.error
           (fun _ tasks =>
              Main.Build_TaskGroups _ _ _ [Main.Build_TaskGroup _ _ _ tasks])
           [] [] false eq_refl).
Defined.

(** ** [taskFromTaskExternal] *)

Section TaskFromTaskExternal.

Variables Moment Priority Status RRule Recurrence : Type.
Variables Status_DONE Status_TODO : Status.
Variable Status_eq : Status -> Status -> bool.
Variable PriorityUtils_toNumber : Priority -> Z.
Variable PriorityUtils_fromNumber : Z -> Priority.
Variable rrule : Recurrence -> RRule.
Variable referenceDate : Recurrence -> option Moment.
Variable blockLinkRegex : jsstring -> option jsstring.
Variable recurrenceRegex : jsstring -> option jsstring.
Variable DateFallback_fromPath : jsstring -> option Moment.
Variable DateFallback_canApplyFallback :
  option Moment -> option Moment -> option Moment -> bool.
Variable Recurrence_fromText :
  jsstring -> option Moment -> option Moment -> option Moment
  -> option Recurrence.

Local Abbreviation Task := (MainD.Task Moment Priority Status Recurrence).
Local Abbreviation TaskExternal := (MainD.TaskExternal Moment RRule).
Local Abbreviation newTaskExternal :=
  (MainD.newTaskExternal Moment Priority Status RRule Recurrence
     Status_DONE Status_eq PriorityUtils_toNumber rrule referenceDate).
Local Abbreviation taskFromTaskExternal :=
  (MainD.taskFromTaskExternal Moment Priority Status RRule Recurrence
     Status_DONE Status_TODO PriorityUtils_fromNumber
     blockLinkRegex recurrenceRegex DateFallback_fromPath
     DateFallback_canApplyFallback Recurrence_fromText).

(** X15. No task comes back exactly when none was given or when the
    checklist pattern does not match the original markdown of the one
    given. *)
Theorem taskFromTaskExternal_null (taskExternal : option TaskExternal) :
  taskFromTaskExternal taskExternal = None
  <-> taskExternal = None
      \/ exists e, taskExternal = Some e
                   /\ TaskRegularExpressions.taskRegex
                        (MainD.ext_originalMarkdown Moment RRule e) = None.
Proof.
  unfold MainD.taskFromTaskExternal. split.
  - destruct taskExternal as [e|]; [|now left].
    destruct (TaskRegularExpressions.taskRegex
                (MainD.ext_originalMarkdown Moment RRule e)) eqn:Hm.
    + destruct (DateFallback_canApplyFallback _ _ _);
        [destruct (DateFallback_fromPath _)|]; discriminate.
    + intros _. right. now exists e.
  - intros [->|(e & -> & ->)]; reflexivity.
Qed.

(** X16. Handing a task out and taking it back keeps its place (path,
    section start, section index), its description, tags, original
    markdown, estimate, priority number and its start, due and done
    dates; the indentation and the list marker are read again from the
    original markdown.  The status comes back as done or to-do only, and
    the preceding header comes back empty. *)
Theorem taskFromTaskExternal_newTaskExternal (task : Task) (m : RegExpMatch) :
  TaskRegularExpressions.taskRegex
    (MainD.originalMarkdown _ _ _ _ task) = Some m ->
  exists back,
    taskFromTaskExternal (Some (newTaskExternal task)) = Some back
    /\ MainD.path _ _ _ _ back = MainD.path _ _ _ _ task
    /\ MainD.sectionStart _ _ _ _ back = MainD.sectionStart _ _ _ _ task
    /\ MainD.sectionIndex _ _ _ _ back = MainD.sectionIndex _ _ _ _ task
    /\ MainD.description _ _ _ _ back = MainD.description _ _ _ _ task
    /\ MainD.tags _ _ _ _ back = MainD.tags _ _ _ _ task
    /\ MainD.originalMarkdown _ _ _ _ back
       = MainD.originalMarkdown _ _ _ _ task
    /\ MainD.estimatedTimeToComplete _ _ _ _ back
       = MainD.estimatedTimeToComplete _ _ _ _ task
    /\ MainD.priority _ _ _ _ back
       = PriorityUtils_fromNumber
           (PriorityUtils_toNumber (MainD.priority _ _ _ _ task))
    /\ MainD.startDate _ _ _ _ back = MainD.startDate _ _ _ _ task
    /\ MainD.dueDate _ _ _ _ back = MainD.dueDate _ _ _ _ task
    /\ MainD.doneDate _ _ _ _ back = MainD.doneDate _ _ _ _ task
    /\ MainD.indentation _ _ _ _ back = capture m 1
    /\ MainD.listMarker _ _ _ _ back = capture m 2
    /\ MainD.status _ _ _ _ back
       = (if Status_eq (MainD.status _ _ _ _ task) Status_DONE
          then Status_DONE else Status_TODO)
    /\ MainD.precedingHeader _ _ _ _ back = [].
Proof.
  intros Hm. unfold MainD.taskFromTaskExternal.
  cbn [MainD.newTaskExternal MainD.ext_originalMarkdown MainD.ext_uid
       MainD.ext_startDate MainD.ext_scheduledDate MainD.ext_dueDate].
  rewrite Hm.
  destruct (DateFallback_canApplyFallback _ _ _);
    [destruct (DateFallback_fromPath _)|];
    eexists; (split; [reflexivity|]); cbn; repeat split; reflexivity.
Qed.

(** X17. A task comes back with its scheduled date marked as inferred
    only together with a scheduled date, the one of its path; when the
    mark is not set the scheduled date is the one that was handed in. *)
Theorem taskFromTaskExternal_inferred_date (e : TaskExternal) (back : Task) :
  taskFromTaskExternal (Some e) = Some back ->
  if MainD.scheduledDateIsInferred _ _ _ _ back
  then MainD.scheduledDate _ _ _ _ back
       = DateFallback_fromPath (MainD.path _ _ _ _ back)
       /\ MainD.scheduledDate _ _ _ _ back <> None
       /\ DateFallback_canApplyFallback
            (MainD.ext_startDate _ _ e) (MainD.ext_scheduledDate _ _ e)
            (MainD.ext_dueDate _ _ e) = true
  else MainD.scheduledDate _ _ _ _ back = MainD.ext_scheduledDate _ _ e.
Proof.
  unfold MainD.taskFromTaskExternal.
  destruct (TaskRegularExpressions.taskRegex _); [|discriminate].
  destruct (DateFallback_canApplyFallback _ _ _) eqn:Hc;
    [destruct (DateFallback_fromPath _) eqn:Hp|];
    intros [= <-]; cbn; try reflexivity.
  repeat split; [now rewrite Hp | discriminate].
Qed.

End TaskFromTaskExternal.

Lemma taskFromTaskExternal_newTaskExternal_witness :
  TaskRegularExpressions.taskRegex
    (MainD.originalMarkdown _ _ _ _ Instances.milkTask)
  = Some Examples.milkMatch
  /\ exists back,
       Instances.taskFromTaskExternal
         (Some (Instances.newTaskExternal Instances.milkTask)) = Some back
       /\ MainD.description _ _ _ _ back = str "Buy milk"
       /\ MainD.precedingHeader _ _ _ _ back = [].
Proof.
  split; [reflexivity|].
  destruct (taskFromTaskExternal_newTaskExternal
              Z Z bool unit unit true false Bool.eqb (fun p => p) (fun n => n)
              (fun r => r) (fun _ => None) (fun _ => None) (fun _ => None)
              (fun _ => Some 19723%Z) Instances.canApplyFallback
              (fun _ _ _ _ => None)
              Instances.milkTask Examples.milkMatch eq_refl)
    as (back & Hback & _ & _ & _ & Hd & _ & _ & _ & _ & _ & _ & _ & _ & _ & _ & Hh).
  exists back. split; [exact Hback|]. split; [exact Hd | exact Hh].
Defined.

Lemma taskFromTaskExternal_inferred_date_witness :
  exists back,
    Instances.taskFromTaskExternal
      (Some (Instances.newTaskExternal Instances.milkTask)) = Some back
    /\ MainD.scheduledDateIsInferred _ _ _ _ back = true
    /\ MainD.scheduledDate _ _ _ _ back = Some 19723%Z.
Proof.
  eexists. split; [reflexivity|]. split; [reflexivity|].
  exact (proj1 (taskFromTaskExternal_inferred_date
                  Z Z bool unit unit true false (fun n => n)
                  (fun _ => None) (fun _ => None)
                  (fun _ => Some 19723%Z) Instances.canApplyFallback
                  (fun _ _ _ _ => None)
                  (Instances.newTaskExternal Instances.milkTask) _ eq_refl)).
Defined.

(** ** The cursor after a recurring task was completed *)

(** X18. When the toggled text is the next occurrence, a line feed, and
    the completed line, as long as the old line and followed by the done
    annotation, the cursor lands at its old offset in the completed line,
    now the second line; the next occurrence must not be more than one
    character shorter than the old line. *)
Theorem calculateCursorOffset_recurring_task_completed
  (originalOffset : Z) (line next last completed date : jsstring)
  (c : code_unit) :
  next = last ++ [c] -> dot c = true ->
  Grammar.headIs dot (completed ++ [32%N]) = true ->
  length completed = length line ->
  (length line <= length next + 1)%Z ->
  TaskRegularExpressions.isoDateAtEnd date = true ->
  ToggleDone.calculateCursorOffset originalOffset line
    (next ++ [LF] ++ completed ++ [32; 9989; 32]%N ++ date)
  = (originalOffset + (length next + 1))%Z.
Proof.
  intros Hnext Hc Hhead Hsame Hshort Hdate.
  set (new := next ++ [LF] ++ completed ++ [32; 9989; 32]%N ++ date).
  assert (Hlen : length new = (length next + 1 + length line + 13)%Z).
  { unfold new. rewrite !length_app, (isoDateAtEnd_length date Hdate), Hsame.
    change (length [LF]) with 1%Z.
    change (length [32; 9989; 32]%N) with 3%Z. lia. }
  assert (Hnonempty : (1 <= length next)%Z).
  { rewrite Hnext, length_app. pose proof (length_nonneg last).
    change (length [c]) with 1%Z. lia. }
  assert (Hm : matches TaskRegularExpressions.doneDateRegex new = true).
  { apply matches_doneDateRegex_iff.
    exists (next ++ [LF] ++ completed ++ [32%N]), [32%N], date.
    unfold new. repeat split; [|exact Hdate].
    now rewrite <- !app_assoc. }
  assert (Hbreak : matches ToggleDone.twoLines new = true).
  { apply matches_twoLines_iff. unfold new. rewrite Hnext.
    destruct completed as [|d completed'].
    - exists last, c, 32%N, ([9989; 32]%N ++ date).
      rewrite <- !app_assoc. now repeat split.
    - exists last, c, d, (completed' ++ [32; 9989; 32]%N ++ date).
      rewrite <- !app_assoc. now repeat split. }
  rewrite calculateCursorOffset_longer by lia.
  unfold Policy.adjustedLength, Policy.remainingSteps.
  rewrite Hm, Hbreak, Hlen. cbn [andb].
  destruct (Z.leb_spec 13 (length next + 1 + length line + 13 - length line));
    [|lia].
  rewrite andb_true_r.
  destruct (Z.leb_spec (2 * length line)
              (length next + 1 + length line + 13 - 13)); lia.
Qed.

Lemma calculateCursorOffset_recurring_task_completed_witness :
  ToggleDone.calculateCursorOffset 3 (str "- [ ] a")
    (str "- [ ] a" ++ [LF] ++ str "- [x] a" ++ [32; 9989; 32]%N
     ++ str "2024-01-15")
  = (3 + (length (str "- [ ] a") + 1))%Z.
Proof.
  exact (calculateCursorOffset_recurring_task_completed
           3 (str "- [ ] a") (str "- [ ] a") (str "- [ ] ") (str "- [x] a")
           (str "2024-01-15") 97%N
           eq_refl eq_refl eq_refl eq_refl
           ltac:(vm_compute; discriminate) eq_refl).
Defined.

(** ** [toggleLine] never raises, and takes exactly one branch *)

Lemma join_separated (parts : list jsstring) :
  join [LF] parts = Branches.separated parts.
Proof.
  induction parts as [|p [|q rest] IH].
  - reflexivity.
  - cbn. now rewrite app_nil_r.
  - change (join [LF] (p :: q :: rest))
      with (p ++ [LF] ++ join [LF] (q :: rest)).
    rewrite IH. reflexivity.
Qed.

Lemma mapM_Forall2 {A B : Type} (f : A -> Raising.Outcome B)
  (l : list A) (rs : list B) :
  Raising.mapM f l = Raising.Returned rs
  <-> Forall2 (fun a r => f a = Raising.Returned r) l rs.
Proof.
  revert rs. induction l as [|a l IH]; intros rs; cbn [Raising.mapM].
  - split.
    + intros [= <-]. constructor.
    + intros H. inversion H. reflexivity.
  - split.
    + destruct (f a) as [b|] eqn:Ha; [|discriminate]. cbn [Raising.bind].
      destruct (Raising.mapM f l) as [bs|] eqn:Hl; [|discriminate].
      intros [= <-]. constructor; [exact Ha | now apply IH].
    + intros H. inversion H as [|a' b l' bs Ha Hl]; subst.
      rewrite Ha. cbn [Raising.bind].
      apply IH in Hl. now rewrite Hl.
Qed.

Lemma mapM_returns {A B : Type} (f : A -> Raising.Outcome B) (l : list A) :
  (forall a, exists b, f a = Raising.Returned b) ->
  exists rs, Raising.mapM f l = Raising.Returned rs.
Proof.
  intros Hf. induction l as [|a l [bs IH]]; [now exists []|].
  destruct (Hf a) as [b Hb]. exists (b :: bs).
  cbn [Raising.mapM]. now rewrite Hb, IH.
Qed.

Lemma listMarker_none (s : jsstring) :
  (forall marker after,
     Grammar.isListMarkerText marker -> s <> marker ++ after) ->
  TaskRegularExpressions.listMarker s = None.
Proof.
  intros H.
  destruct (TaskRegularExpressions.listMarker s) as [[marker after]|] eqn:E;
    [|reflexivity].
  apply listMarker_inv in E as [E Hm]. now destruct (H marker after Hm).
Qed.

(** The checklist pattern matches exactly the checklist items. *)
Lemma taskRegex_isChecklistItem (line : jsstring) :
  TaskRegularExpressions.taskRegex line <> None
  <-> Branches.isChecklistItem line.
Proof.
  split.
  - destruct (TaskRegularExpressions.taskRegex line) as [m|] eqn:Hm;
      [intros _|congruence].
    destruct (taskRegex_inv line m Hm)
      as (ind & mk & gap & sym & pad & body & rest & _ & H).
    now exists ind, mk, gap, sym, pad, body, rest.
  - intros (ind & mk & gap & sym & pad & body & rest & -> & H).
    destruct H as (H1 & H2 & H3 & H4 & H5 & H6 & H7 & H8 & H9).
    now rewrite (taskRegex_complete ind mk gap sym pad body rest).
Qed.

Section NeverRaises.

Variable Task : Type.
Variable fromLine : jsstring -> Raising.Outcome (option Task).
Variable toggle : Task -> Raising.Outcome (list Task).
Variable toFileLineString : Task -> Raising.Outcome jsstring.
Variable Status : Type.
Variable bySymbol : jsstring -> Raising.Outcome Status.
Variable nextStatusSymbol : Status -> jsstring.

Local Abbreviation toggleLine :=
  (Raising.toggleLine Task fromLine toggle toFileLineString
     Status bySymbol nextStatusSymbol).
Local Abbreviation Takes :=
  (Branches.Takes Task fromLine toggle toFileLineString
     Status bySymbol nextStatusSymbol).

(** What the code does on a line of a given shape: the branch that
    takes the line fixes what the tests of the code find, and its result
    is the string the code returns. *)
Lemma Takes_code (line : jsstring) (b : Branches.Branch) (result : jsstring) :
  Takes line b result ->
  toggleLine line = Raising.Returned result
  /\ match b with
     | Branches.FullTask =>
       exists task, fromLine line = Raising.Returned (Some task)
     | Branches.ChecklistItem =>
       fromLine line = Raising.Returned None
       /\ TaskRegularExpressions.taskRegex line <> None
     | Branches.ListItem =>
       fromLine line = Raising.Returned None
       /\ TaskRegularExpressions.taskRegex line = None
       /\ TaskRegularExpressions.listItemRegex line <> None
     | Branches.PlainText =>
       fromLine line = Raising.Returned None
       /\ TaskRegularExpressions.taskRegex line = None
       /\ TaskRegularExpressions.listItemRegex line = None
     end.
Proof.
  intros H. unfold Raising.toggleLine.
  destruct H as [task tasks rendered Hf Ht Hr
                | ind mk gap sym pad body rest status Hf Hparts Hs
                | ind mk rest Hf Hline Hind Hmk Hno
                | ind rest Hf Hline Hind Hrest Hno].
  - rewrite Hf. cbn [Raising.bind]. rewrite Ht. cbn [Raising.bind].
    apply mapM_Forall2 in Hr. rewrite Hr. cbn [Raising.bind].
    rewrite join_separated. split; [reflexivity|]. now exists task.
  - rewrite Hf. cbn [Raising.bind].
    destruct Hparts as (Hline & H1 & H2 & H3 & H4 & H5 & H6 & H7 & H8 & H9).
    pose proof (taskRegex_complete ind mk gap sym pad body rest
                  H1 H2 H3 H4 H5 H6 H7 H8 H9) as Hm.
    rewrite <- Hline in Hm. rewrite Hm.
    cbn [capture captures Nat.sub nth]. rewrite Hs. cbn [Raising.bind].
    split; [|split; [reflexivity|discriminate]].
    f_equal. unfold replace. rewrite Hm. cbn [index firstn app matched].
    rewrite GetSubstitution_checklist_prefix by discriminate.
    cbn [capture captures Nat.sub nth Nat.add].
    rewrite <- !app_assoc. do 3 f_equal.
    rewrite Hline at 1. cbn [app].
    replace (ind ++ mk ++ gap ++ 91%N :: sym ++ 93%N :: pad ++ body ++ rest)
      with ((ind ++ mk ++ gap ++ 91%N :: sym ++ 93%N :: pad ++ body) ++ rest)
      by (flatten_app; reflexivity).
    apply skipn_length_app.
  - rewrite Hf. cbn [Raising.bind].
    assert (Ht : TaskRegularExpressions.taskRegex line = None).
    { destruct (TaskRegularExpressions.taskRegex line) eqn:E; [|reflexivity].
      destruct Hno. apply taskRegex_isChecklistItem. congruence. }
    pose proof (listItemRegex_complete ind mk rest Hind Hmk) as Hl.
    rewrite <- Hline in Hl. rewrite Ht. unfold test. rewrite Hl.
    split; [|split; [reflexivity|split; [reflexivity|discriminate]]].
    f_equal. rewrite (replace_listItemRegex line _ Hl).
    cbn [capture captures Nat.sub nth matched].
    do 3 f_equal. rewrite Hline, app_assoc. apply skipn_length_app.
  - rewrite Hf. cbn [Raising.bind].
    destruct (takeWhile_app _ ind rest Hind Hrest) as [Etake Edrop].
    rewrite <- Hline in Etake, Edrop.
    assert (Hl : TaskRegularExpressions.listItemRegex line = None).
    { unfold TaskRegularExpressions.listItemRegex.
      now rewrite Edrop, (listMarker_none rest Hno). }
    assert (Ht : TaskRegularExpressions.taskRegex line = None).
    { unfold TaskRegularExpressions.taskRegex.
      now rewrite Edrop, (listMarker_none rest Hno). }
    rewrite Ht. unfold test. rewrite Hl.
    split; [|now repeat split].
    f_equal. rewrite replace_indentationRegex. now rewrite Etake, Edrop.
Qed.

(** C8. When the calls into the parser, the tasks and the status registry
    return, as the specification states of each, [toggleLine] returns for
    every line, and exactly one of the four branches takes the line: the
    result is what that branch makes of the shape of the line, and no
    other branch and no other result fit the line. *)
Theorem toggleLine_never_raises (line : jsstring) :
  (forall l, exists task, fromLine l = Raising.Returned task) ->
  (forall task, exists tasks, toggle task = Raising.Returned tasks) ->
  (forall task, exists s, toFileLineString task = Raising.Returned s) ->
  (forall symbol, exists status, bySymbol symbol = Raising.Returned status) ->
  exists (b : Branches.Branch) (result : jsstring),
    toggleLine line = Raising.Returned result
    /\ Takes line b result
    /\ forall b' result', Takes line b' result' -> b' = b /\ result' = result.
Proof.
  intros HfromLine Htoggle Hrender HbySymbol.
  assert (Hexists : exists b result, Takes line b result).
  { destruct (HfromLine line) as [[task|] Hf].
    - destruct (Htoggle task) as [tasks Ht].
      destruct (mapM_returns toFileLineString tasks Hrender)
        as [rendered Hr].
      exists Branches.FullTask, (Branches.separated rendered).
      apply (Branches.takes_full_task _ _ _ _ _ _ _ line task tasks rendered
               Hf Ht).
      now apply mapM_Forall2.
    - destruct (TaskRegularExpressions.taskRegex line) as [m|] eqn:Ht.
      + destruct (taskRegex_inv line m Ht)
          as (ind & mk & gap & sym & pad & body & rest & _ & Hparts).
        destruct (HbySymbol sym) as [status Hs].
        eexists _, _.
        exact (Branches.takes_checklist_item _ _ _ _ _ _ _ line
                 ind mk gap sym pad body rest status Hf Hparts Hs).
      + destruct (TaskRegularExpressions.listItemRegex line) as [m|] eqn:Hl.
        * destruct (listItemRegex_inv line m Hl)
            as (ind & mk & rest & _ & Hline & Hind & Hmk).
          eexists _, _.
          apply (Branches.takes_list_item _ _ _ _ _ _ _ line ind mk rest
                   Hf Hline Hind Hmk).
          intros Hc. apply taskRegex_isChecklistItem in Hc. congruence.
        * eexists _, _.
          apply (Branches.takes_plain_text _ _ _ _ _ _ _ line
                   (takeWhile TaskRegularExpressions.isIndentation line)
                   (dropWhile TaskRegularExpressions.isIndentation line)
                   Hf).
          -- symmetry. apply takeWhile_dropWhile.
          -- apply takeWhile_all.
          -- apply dropWhile_head.
          -- intros marker after Hmk E.
             pose proof (listItemRegex_complete
                           (takeWhile TaskRegularExpressions.isIndentation line)
                           marker after (takeWhile_all _ _) Hmk) as C.
             rewrite <- E, takeWhile_dropWhile in C. congruence. }
  destruct Hexists as (b & result & HT).
  exists b, result.
  destruct (Takes_code line b result HT) as [Hrun Hb].
  split; [exact Hrun|]. split; [exact HT|].
  intros b' result' HT'.
  destruct (Takes_code line b' result' HT') as [Hrun' Hb'].
  split; [|congruence].
  destruct b, b'; try reflexivity; cbn in Hb, Hb';
    repeat match goal with
           | H : exists _, _ |- _ => destruct H
           | H : _ /\ _ |- _ => destruct H
           end; congruence.
Qed.

End NeverRaises.

(** With calls that return, the function is [toggleLine] as embedded
    above. *)
Lemma toggleLine_returning_calls
  (Task : Type) (fromLine : jsstring -> option Task)
  (toggle : Task -> list Task) (toFileLineString : Task -> jsstring)
  (Status : Type) (bySymbol : jsstring -> Status)
  (nextStatusSymbol : Status -> jsstring) (line : jsstring) :
  Raising.toggleLine Task
    (fun l => Raising.Returned (fromLine l))
    (fun t => Raising.Returned (toggle t))
    (fun t => Raising.Returned (toFileLineString t))
    Status (fun s => Raising.Returned (bySymbol s)) nextStatusSymbol line
  = Raising.Returned
      (ToggleDone.toggleLine Task fromLine toggle toFileLineString
         Status bySymbol nextStatusSymbol line).
Proof.
  unfold Raising.toggleLine, ToggleDone.toggleLine. cbn [Raising.bind].
  destruct (fromLine line) as [task|].
  - assert (M : forall l,
              Raising.mapM (fun t => Raising.Returned (toFileLineString t)) l
              = Raising.Returned (map toFileLineString l)).
    { induction l as [|a l IH]; [reflexivity|].
      cbn [Raising.mapM Raising.bind map]. now rewrite IH. }
    now rewrite M.
  - destruct (TaskRegularExpressions.taskRegex line); [reflexivity|].
    now destruct (test TaskRegularExpressions.listItemRegex line).
Qed.

Lemma toggleLine_never_raises_witness :
  exists (b : Branches.Branch) (result : jsstring),
    Instances.toggleLine (str "  Just text") = Raising.Returned result
    /\ Branches.Takes unit Instances.fromLine
         (fun _ => Raising.Returned []) (fun _ => Raising.Returned [])
         jsstring Instances.bySymbol Examples.nextStatusSymbol
         (str "  Just text") b result.
Proof.
  destruct (toggleLine_never_raises unit Instances.fromLine
              (fun _ => Raising.Returned []) (fun _ => Raising.Returned [])
              jsstring Instances.bySymbol Examples.nextStatusSymbol
              (str "  Just text")
              (fun l => ex_intro _ None eq_refl)
              (fun t => ex_intro _ [] eq_refl)
              (fun t => ex_intro _ [] eq_refl)
              (fun s => ex_intro _ s eq_refl))
    as (b & result & Hrun & HT & _).
  exists b, result. split; [exact Hrun | exact HT].
Defined.

(** ** The list marker the cursor policy looks for *)

(** C6. The claim has the policy find the list marker of the new line,
    leave an offset before it unchanged and shift every other offset.
    The code searches for a dash or an asterisk only, as its comment
    [Find the first list marker] has it, so the marker of a numbered item
    is not found.  In ["  1. [ ] a"] the marker stands at offset 2 and
    there is no dash and no asterisk: the offset 1, inside the
    indentation, is shifted to 5.  In ["1. [ ] a-b"] the marker stands at
    offset 0 and the first dash is the one of the body at offset 8: the
    offset 3, after the marker, is returned unchanged and not shifted to
    7.  Neither new line is taken as a duplicated line. *)
Lemma calculateCursorOffset_numbered_marker_not_found :
  ((length (str "  1. a") < length (str "  1. [ ] a"))%Z
   /\ ~ Policy.embeddedLineBreak (str "  1. [ ] a")
   /\ Grammar.listMarkerAt (str "  1. [ ] a") 2
   /\ ToggleDone.calculateCursorOffset 1 (str "  1. a") (str "  1. [ ] a")
      = 5%Z)
  /\ ((length (str "1. a-b") < length (str "1. [ ] a-b"))%Z
      /\ ~ Policy.embeddedLineBreak (str "1. [ ] a-b")
      /\ Grammar.listMarkerAt (str "1. [ ] a-b") 0
      /\ ToggleDone.calculateCursorOffset 3 (str "1. a-b") (str "1. [ ] a-b")
         = 3%Z).
Proof.
  split; (split; [reflexivity|]); (split; [|split; [|reflexivity]]).
  - intros H. apply matches_twoLines_iff in H. discriminate.
  - exists (str "  "), (str "1."), (str " [ ] a"). repeat split.
    right. exists (str "1"). repeat split. discriminate.
  - intros H. apply matches_twoLines_iff in H. discriminate.
  - exists [], (str "1."), (str " [ ] a-b"). repeat split.
    right. exists (str "1"). repeat split. discriminate.
Qed.

(** Where the list marker of the new line is a dash or an asterisk, the
    code does find it: on a strictly longer new line that is not taken as
    a duplicated line, an offset inside the indentation is returned
    unchanged and every other offset is shifted right by the adjusted
    growth. *)
Lemma calculateCursorOffset_bulleted_list_marker
  (originalOffset : Z) (oldLine indentation rest : jsstring) (c : code_unit) :
  forallb TaskRegularExpressions.isIndentation indentation = true ->
  TaskRegularExpressions.isBullet c = true ->
  (length oldLine < length (indentation ++ c :: rest))%Z ->
  ~ ((2 * length oldLine
      <= Policy.adjustedLength oldLine (indentation ++ c :: rest))%Z
     /\ Policy.embeddedLineBreak (indentation ++ c :: rest)) ->
  ToggleDone.calculateCursorOffset originalOffset oldLine
    (indentation ++ c :: rest)
  = if (originalOffset <? length indentation)%Z
    then originalOffset
    else (originalOffset
          + (Policy.adjustedLength oldLine (indentation ++ c :: rest)
             - length oldLine))%Z.
Proof.
  intros Hind Hc Hlen Hnodup.
  destruct (calculateCursorOffset_first_dash_or_asterisk
              originalOffset oldLine (indentation ++ c :: rest) Hlen Hnodup)
    as [Hfirst _].
  destruct (Hfirst (length indentation)) as [Hbefore Hafter].
  { exists indentation, c, rest. repeat split; [|exact Hc].
    now apply isIndentation_not_bullet. }
  destruct (Z.ltb_spec originalOffset (length indentation)); auto.
Qed.

(** ** An exception of [toggleLine] is an exception of a call *)

Lemma mapM_raised {A B : Type} (f : A -> Raising.Outcome B) (l : list A) :
  Raising.mapM f l = Raising.Raised ->
  exists a, In a l /\ f a = Raising.Raised.
Proof.
  induction l as [|a l IH]; cbn [Raising.mapM]; [discriminate|].
  destruct (f a) as [b|] eqn:Ha; [|intros _; exists a; split; [now left|exact Ha]].
  cbn [Raising.bind].
  destruct (Raising.mapM f l) as [bs|]; [discriminate|].
  intros _. destruct (IH eq_refl) as (a' & Hin & Ha').
  exists a'. split; [now right | exact Ha'].
Qed.

(** The code of [toggleLine] has no failing step of its own: when it
    raises, the parser raised on the line, or the toggle of its task, or
    the rendering of one of the toggled tasks, or the status registry on
    the symbol of the line. *)
Lemma toggleLine_raises_in_a_call
  (Task : Type) (fromLine : jsstring -> Raising.Outcome (option Task))
  (toggle : Task -> Raising.Outcome (list Task))
  (toFileLineString : Task -> Raising.Outcome jsstring)
  (Status : Type) (bySymbol : jsstring -> Raising.Outcome Status)
  (nextStatusSymbol : Status -> jsstring) (line : jsstring) :
  Raising.toggleLine Task fromLine toggle toFileLineString
    Status bySymbol nextStatusSymbol line = Raising.Raised ->
  fromLine line = Raising.Raised
  \/ (exists task, toggle task = Raising.Raised)
  \/ (exists task, toFileLineString task = Raising.Raised)
  \/ (exists symbol, bySymbol symbol = Raising.Raised).
Proof.
  unfold Raising.toggleLine.
  destruct (fromLine line) as [[task|]|]; cbn [Raising.bind]; [| |now left].
  - destruct (toggle task) as [tasks|] eqn:Ht; cbn [Raising.bind];
      [|intros _; right; left; now exists task].
    destruct (Raising.mapM toFileLineString tasks) as [rendered|] eqn:Hr;
      cbn [Raising.bind]; [discriminate|].
    intros _. destruct (mapM_raised _ _ Hr) as (t & _ & Hraise).
    right. right. left. now exists t.
  - destruct (TaskRegularExpressions.taskRegex line) as [m|].
    + destruct (bySymbol (capture m 3)) as [status|] eqn:Hs;
        cbn [Raising.bind]; [discriminate|].
      intros _. right. right. right. now exists (capture m 3).
    + destruct (test TaskRegularExpressions.listItemRegex line); discriminate.
Qed.
